(** * The redaction-removal engine of [scripts/unredact.py]

    A shallow embedding of [clean_vector_redactions], [process_file] and
    [run_operation], and the properties of the classification and page
    reconstruction that the design document states about them.

    Conventions of the embedding.
    - Python floats are the rationals they denote ([Q]); the literals
      [0.05], [0.95], [5], [10], [15], [240] are the decimal numbers
      written in the script.  [sum(pixels) / len(pixels)] is the exact
      quotient.
    - A call into PyMuPDF either returns or raises; the answers of the
      library for one input file are part of the input ([pyresult]).
    - The dictionaries PyMuPDF hands out have a fixed set of keys and are
      records; a key the script reads with [.get(key, default)] is an
      [option] field.
    - Printing and the command line are left out: no state of the engine
      depends on them.  The names of the files written are computed apart
      from the engine ([final_name], [json_name]); writing the two output
      files is taken to succeed. *)

From Stdlib Require Import ZArith QArith Qminmax List Bool Lia String Arith.
From Stdlib Require Import Strings.Byte Strings.Ascii Sorting.Sorted.
Import ListNotations.

Set Implicit Arguments.

(** ** Python values *)

Module Py.

(** The outcome of a library call: a value, or an exception. *)
Inductive pyresult (A : Type) : Type :=
| Ok (a : A)
| Raised.
Arguments Ok {A} a.
Arguments Raised {A}.

Definition bind {A B} (r : pyresult A) (k : A -> pyresult B) : pyresult B :=
  match r with
  | Ok a => k a
  | Raised => Raised
  end.

Definition Qltb (a b : Q) : bool := negb (Qle_bool b a).

(** [all(c < t for c in color)] and [all(c > t for c in color)]. *)
Definition all_lt (t : Q) (color : list Q) : bool :=
  forallb (fun c => Qltb c t) color.
Definition all_gt (t : Q) (color : list Q) : bool :=
  forallb (fun c => Qltb t c) color.

(** Truth value of an optional tuple: [None] and [()] are false. *)
Definition truthy {A} (v : option (list A)) : bool :=
  match v with
  | Some (_ :: _) => true
  | _ => false
  end.

(** The tuple behind a truthy optional tuple ([()] when absent, where
    the script never looks at it). *)
Definition tuple_of {A} (v : option (list A)) : list A :=
  match v with
  | Some c => c
  | None => []
  end.

(** A [str] is its sequence of code points. *)
Definition str := list N.

Definition str_of_string (s : string) : str :=
  map (fun a => N_of_ascii a) (list_ascii_of_string s).

(** [str.isspace] for one code point (the table of CPython's
    [_PyUnicode_IsWhitespace]). *)
Definition isspace (c : N) : bool :=
  ((9 <=? c) && (c <=? 13) || (28 <=? c) && (c <=? 32)
   || (c =? 133) || (c =? 160) || (c =? 5760)
   || (8192 <=? c) && (c <=? 8202)
   || (c =? 8232) || (c =? 8233) || (c =? 8239) || (c =? 8287)
   || (c =? 12288))%N.

Fixpoint lstrip (s : str) : str :=
  match s with
  | [] => []
  | c :: s' => if isspace c then lstrip s' else s
  end.

(** [s.strip()] *)
Definition strip (s : str) : str := rev (lstrip (rev (lstrip s))).

(** Truth value of a [str]: the empty string is false. *)
Definition nonempty (s : str) : bool :=
  match s with
  | [] => false
  | _ :: _ => true
  end.

End Py.
Import Py.

(** ** The part of PyMuPDF ([fitz]) the script uses *)

Module fitz.

Record Point := mkPoint { px : Q; py : Q }.

Record Rect := mkRect { x0 : Q; y0 : Q; x1 : Q; y1 : Q }.

Record Quad := mkQuad { ul : Point; ur : Point; ll : Point; lr : Point }.

(** [Rect.width], [Rect.height]: never negative. *)
Definition width (r : Rect) : Q := Qmax 0 (x1 r - x0 r).
Definition height (r : Rect) : Q := Qmax 0 (y1 r - y0 r).

(** [Rect.is_empty]: no interior. *)
Definition is_empty (r : Rect) : bool :=
  Qle_bool (x1 r) (x0 r) || Qle_bool (y1 r) (y0 r).

(** [Rect.intersect]: the common part of two rectangles. *)
Definition intersect (a b : Rect) : Rect :=
  mkRect (Qmax (x0 a) (x0 b)) (Qmax (y0 a) (y0 b))
         (Qmin (x1 a) (x1 b)) (Qmin (y1 a) (y1 b)).

(** [Rect.intersects]: the two rectangles have a non-empty common part
    (finite coordinates only, so the library's test for the infinite
    rectangle never fires). *)
Definition intersects (a b : Rect) : bool :=
  if is_empty a || is_empty b then false
  else negb (is_empty (intersect a b)).

(** A colour: one number in 0..1 per channel. *)
Definition Color := list Q.

(** One entry of [path["items"]]. *)
Inductive Item : Type :=
| item_l (p1 p2 : Point)
| item_re (r : Rect)
| item_qu (q : Quad)
| item_c (p1 p2 p3 p4 : Point).

(** One entry of [page.get_drawings()].  [width] and [fill_opacity] are
    the keys the script reads with a default. *)
Record DrawingPath := mkPath {
  items : list Item;
  rect : Rect;
  fill : option Color;
  color : option Color;
  path_width : option Q;
  fill_opacity : option Q
}.

(** A decoded image.  [colorspace_n] is [pix.colorspace.n] ([None] when
    the pixmap has no colour space, where reading [.n] raises);
    [samples] is the sample buffer; [rgb_samples] is the sample buffer
    of [fitz.Pixmap(fitz.csRGB, pix)]. *)
Record Pixmap := mkPixmap {
  colorspace_n : option nat;
  samples : list byte;
  rgb_samples : pyresult (list byte)
}.

(** One entry of [page.get_images(full=True)], with what the library
    answers for its xref. *)
Record Image := mkImage {
  xref : Z;
  get_image_rects : pyresult (list Rect);
  get_pixmap : pyresult Pixmap
}.

(** One span of [page.get_text("dict")]; [span_color] is the colour the
    run has in the input. *)
Record Span := mkSpan {
  text : str;
  bbox : Rect;
  origin : Point;
  size : Q;
  span_color : Z
}.

Record Line := mkLine { spans : option (list Span) }.
Record Block := mkBlock { lines : option (list Line) }.

Record Annot := mkAnnot { annot_xref : Z }.

(** An input page: its rectangle and the answers of the four calls the
    script makes on it. *)
Record Page := mkPage {
  page_rect : Rect;
  page_annots : pyresult (list Annot);
  get_images : pyresult (list Image);
  get_drawings : pyresult (list DrawingPath);
  get_text_blocks : pyresult (list Block)
}.

(** What the script draws on a [Shape] between two [finish] calls. *)
Inductive DrawCmd : Type :=
| draw_line (p1 p2 : Point)
| draw_rect (r : Rect)
| draw_quad (q : Quad)
| draw_bezier (p1 p2 p3 p4 : Point).

(** The arguments of one [shape.finish(...)]; [None] for [fin_width] and
    [fin_fill_opacity] means the argument is not passed. *)
Record Finish := mkFinish {
  fin_fill : option Color;
  fin_color : option Color;
  fin_width : option Q;
  fin_fill_opacity : option Q
}.

(** What the script puts on an output page, in the order of the calls. *)
Inductive Op : Type :=
| insert_image (r : Rect) (pix : Pixmap)
| commit_shape (paths : list (list DrawCmd * Finish))
| insert_text (at_ : Point) (txt : str) (fontsize : Q) (col : Q * Q * Q).

(** A page of [new_doc]. *)
Record NewPage := mkNewPage {
  new_width : Q;
  new_height : Q;
  contents : list Op
}.

End fitz.
Import fitz.

(** ** [clean_vector_redactions] *)

(** The local variables of the function. *)
Record VecState := mkVecState {
  cleaned_drawings : list DrawingPath;
  removed_rects : list Rect;
  black_v_removed : nat;
  white_v_removed : nat
}.

(** The three tests of the loop body, on [(is_redaction, black, white)]. *)
Definition black_fill_test (path : DrawingPath) (s : bool * nat * nat)
  : bool * nat * nat :=
  let '(is_redaction, b, w) := s in
  if truthy (fill path) then
    if all_lt 0.05 (tuple_of (fill path)) then
      if Qltb 5 (width (rect path)) && Qltb 5 (height (rect path))
      then (true, S b, w) else s
    else s
  else s.

Definition black_stroke_test (path : DrawingPath) (s : bool * nat * nat)
  : bool * nat * nat :=
  let '(is_redaction, b, w) := s in
  if negb is_redaction && truthy (color path) then
    if all_lt 0.05 (tuple_of (color path))
       && Qltb 10 (match path_width path with Some v => v | None => 0 end)
    then (true, S b, w) else s
  else s.

Definition white_fill_test (path : DrawingPath) (s : bool * nat * nat)
  : bool * nat * nat :=
  let '(is_redaction, b, w) := s in
  if negb is_redaction && truthy (fill path) then
    if all_gt 0.95 (tuple_of (fill path)) then
      if Qltb 5 (width (rect path)) && Qltb 5 (height (rect path))
      then (true, b, S w) else s
    else s
  else s.

(** One turn of [for path in drawings]. *)
Definition clean_step (st : VecState) (path : DrawingPath) : VecState :=
  let '(is_redaction, b, w) :=
    white_fill_test path
      (black_stroke_test path
         (black_fill_test path
            (false, black_v_removed st, white_v_removed st))) in
  if is_redaction
  then mkVecState (cleaned_drawings st) (removed_rects st ++ [rect path]) b w
  else mkVecState (cleaned_drawings st ++ [path]) (removed_rects st) b w.

Definition clean_loop (drawings : list DrawingPath) : VecState :=
  fold_left clean_step drawings (mkVecState [] [] 0 0).

Definition clean_vector_redactions (page : Page) : pyresult VecState :=
  bind (get_drawings page) (fun drawings => Ok (clean_loop drawings)).

(** ** [process_file] *)

Notation "x <- e ;; k" := (bind e (fun x => k))
  (at level 61, e at next level, right associativity).

(** The dictionary [stats]. *)
Record Stats := mkStats {
  black_img : nat;
  white_img : nat;
  black_vec : nat;
  white_vec : nat;
  annots : nat
}.

(** One entry of [unredacted_data["spans"]]: the keys [page], [text],
    [bbox] and [rect]. *)
Record RecoveredSpan := mkRecovered {
  rec_page : nat;
  rec_text : str;
  rec_bbox : list Q;
  rec_rect : list Q
}.

(** What the body of the page loop reads and writes: [stats],
    [unredacted_data["spans"]], [removed_rects_on_page], [new_page], and
    the annotations handed to [page.delete_annot]. *)
Record PageState := mkPageState {
  stats : Stats;
  unredacted_spans : list RecoveredSpan;
  removed_rects_on_page : list Rect;
  new_page : NewPage;
  deleted_annots : list Annot
}.

Definition set_stats (f : Stats -> Stats) (st : PageState) : PageState :=
  mkPageState (f (stats st)) (unredacted_spans st) (removed_rects_on_page st)
              (new_page st) (deleted_annots st).

Definition add_removed (rs : list Rect) (st : PageState) : PageState :=
  mkPageState (stats st) (unredacted_spans st) (removed_rects_on_page st ++ rs)
              (new_page st) (deleted_annots st).

Definition add_span (r : RecoveredSpan) (st : PageState) : PageState :=
  mkPageState (stats st) (unredacted_spans st ++ [r]) (removed_rects_on_page st)
              (new_page st) (deleted_annots st).

(** A call that draws on [new_page]. *)
Definition put (op : Op) (st : PageState) : PageState :=
  mkPageState (stats st) (unredacted_spans st) (removed_rects_on_page st)
              (mkNewPage (new_width (new_page st)) (new_height (new_page st))
                         (contents (new_page st) ++ [op]))
              (deleted_annots st).

Definition incr_black_img (s : Stats) : Stats :=
  mkStats (S (black_img s)) (white_img s) (black_vec s) (white_vec s) (annots s).
Definition incr_white_img (s : Stats) : Stats :=
  mkStats (black_img s) (S (white_img s)) (black_vec s) (white_vec s) (annots s).
Definition add_vec (b w : nat) (s : Stats) : Stats :=
  mkStats (black_img s) (white_img s) (black_vec s + b) (white_vec s + w) (annots s).
Definition add_annots (n : nat) (s : Stats) : Stats :=
  mkStats (black_img s) (white_img s) (black_vec s) (white_vec s) (annots s + n).

(** *** The image loop *)

Definition byte_val (b : byte) : Z := Z.of_N (Byte.to_N b).

(** [sum(pixels)] *)
Definition sum_pixels (pixels : list byte) : Z :=
  fold_right (fun b acc => (byte_val b + acc)%Z) 0%Z pixels.

(** [sum(pixels) / len(pixels)]; division by zero raises. *)
Definition avg_brightness (pixels : list byte) : pyresult Q :=
  match pixels with
  | [] => Raised
  | _ :: _ =>
      Ok (inject_Z (sum_pixels pixels) / inject_Z (Z.of_nat (List.length pixels)))
  end.

(** [check_pix.samples], where
    [check_pix = fitz.Pixmap(fitz.csRGB, pix) if pix.colorspace.n > 3 else pix]. *)
Definition check_pix_samples (pix : Pixmap) : pyresult (list byte) :=
  match colorspace_n pix with
  | None => Raised
  | Some n => if (3 <? n)%nat then rgb_samples pix else Ok (samples pix)
  end.

(** One turn of [for img in page_images]: the [try] block, with
    [except: continue] at every call that can raise.  Nothing is written
    before the last such call, so the state at [continue] is the state
    at entry. *)
Definition process_image (remove_bbox : Z) (st : PageState) (img : Image)
  : PageState :=
  match get_image_rects img with
  | Raised => st
  | Ok [] => st
  | Ok (target_rect :: _) =>
      if Qltb 10 (height target_rect) then
        match get_pixmap img with
        | Raised => st
        | Ok pix =>
            if (remove_bbox =? 1)%Z then
              match (pixels <- check_pix_samples pix ;; avg_brightness pixels) with
              | Raised => st
              | Ok avg =>
                  let st1 := if Qltb avg 15 then set_stats incr_black_img st
                             else st in
                  let st2 := if Qltb 240 avg then set_stats incr_white_img st1
                             else st1 in
                  let is_black_rect := Qltb avg 15 || Qltb 240 avg in
                  if is_black_rect
                  then add_removed [target_rect] st2
                  else put (insert_image target_rect pix) st2
              end
            else put (insert_image target_rect pix) st
        end
      else st
  end.

Definition image_loop (remove_bbox : Z) (page_images : list Image)
  (st : PageState) : PageState :=
  fold_left (process_image remove_bbox) page_images st.

(** *** Redrawing the vector paths *)

Definition or_default (d : Q) (v : option Q) : Q :=
  match v with
  | Some x => x
  | None => d
  end.

(** The [if]/[elif] chain over [item[0]] when redactions are removed. *)
Definition redraw_item (item : Item) : list DrawCmd :=
  match item with
  | item_l p1 p2 => [draw_line p1 p2]
  | item_re r => [draw_rect r]
  | item_qu q => [draw_quad q]
  | item_c p1 p2 p3 p4 => [draw_bezier p1 p2 p3 p4]
  end.

Definition redraw_path (path : DrawingPath) : list DrawCmd * Finish :=
  (flat_map redraw_item (items path),
   mkFinish (fill path) (color path)
            (Some (or_default 1 (path_width path)))
            (Some (or_default 1 (fill_opacity path)))).

(** The chain of the [else] branch ([remove_bbox != 1]). *)
Definition redraw_item_plain (item : Item) : list DrawCmd :=
  match item with
  | item_l p1 p2 => [draw_line p1 p2]
  | item_re r => [draw_rect r]
  | item_qu _ => []
  | item_c _ _ _ _ => []
  end.

Definition redraw_path_plain (path : DrawingPath) : list DrawCmd * Finish :=
  (flat_map redraw_item_plain (items path),
   mkFinish (fill path) (color path) None None).

Definition drawing_step (remove_bbox : Z) (page : Page) (st : PageState)
  : pyresult PageState :=
  if (remove_bbox =? 1)%Z then
    v <- clean_vector_redactions page ;;
    Ok (put (commit_shape (map redraw_path (cleaned_drawings v)))
            (add_removed (removed_rects v)
               (set_stats (add_vec (black_v_removed v) (white_v_removed v)) st)))
  else
    drawings <- get_drawings page ;;
    Ok (put (commit_shape (map redraw_path_plain drawings)) st).

(** *** The text loop *)

(** [for r_rect in removed_rects_on_page: if bbox.intersects(r_rect): ...; break] *)
Fixpoint was_covered (bbox : Rect) (rects : list Rect) : bool :=
  match rects with
  | [] => false
  | r_rect :: rest => if intersects bbox r_rect then true else was_covered bbox rest
  end.

Definition coords (r : Rect) : list Q := [x0 r; y0 r; x1 r; y1 r].

Definition red : Q * Q * Q := (1, 0, 0).
Definition black : Q * Q * Q := (0, 0, 0).

(** One turn of [for span in line.get("spans", [])]. *)
Definition process_span (highlight_text : Z) (current_pg : nat)
  (st : PageState) (span : Span) : PageState :=
  let text := strip (text span) in
  if nonempty text then
    let covered := was_covered (bbox span) (removed_rects_on_page st) in
    let st1 :=
      if covered
      then add_span (mkRecovered current_pg text (coords (bbox span))
                                 (coords (bbox span))) st
      else st in
    let text_color := if (highlight_text =? 1)%Z && covered then red else black in
    put (insert_text (origin span) (fitz.text span) (size span) text_color) st1
  else st.

Definition or_nil {A} (v : option (list A)) : list A :=
  match v with
  | Some l => l
  | None => []
  end.

Definition process_line (highlight_text : Z) (current_pg : nat)
  (st : PageState) (line : Line) : PageState :=
  fold_left (process_span highlight_text current_pg) (or_nil (spans line)) st.

Definition process_block (highlight_text : Z) (current_pg : nat)
  (st : PageState) (block : Block) : PageState :=
  fold_left (process_line highlight_text current_pg) (or_nil (lines block)) st.

Definition text_loop (highlight_text : Z) (current_pg : nat)
  (blocks : list Block) (st : PageState) : PageState :=
  fold_left (process_block highlight_text current_pg) blocks st.

(** *** One page, one file, one run *)

Definition annot_step (remove_bbox : Z) (page : Page) (st : PageState)
  : pyresult PageState :=
  if (remove_bbox =? 1)%Z then
    page_annots <- page_annots page ;;
    Ok (mkPageState (add_annots (List.length page_annots) (stats st))
                    (unredacted_spans st) (removed_rects_on_page st)
                    (new_page st) (deleted_annots st ++ page_annots))
  else Ok st.

(** The body of [for page_index, page in enumerate(doc)], from the
    statistics and spans gathered so far. *)
Definition process_page (remove_bbox highlight_text : Z) (current_pg : nat)
  (page : Page) (stats0 : Stats) (spans0 : list RecoveredSpan)
  : pyresult PageState :=
  let st0 := mkPageState stats0 spans0 [] (mkNewPage 0 0 []) [] in
  st1 <- annot_step remove_bbox page st0 ;;
  let st2 := mkPageState (stats st1) (unredacted_spans st1)
               (removed_rects_on_page st1)
               (mkNewPage (width (page_rect page)) (height (page_rect page)) [])
               (deleted_annots st1) in
  page_images <- get_images page ;;
  let st3 := image_loop remove_bbox page_images st2 in
  st4 <- drawing_step remove_bbox page st3 ;;
  blocks <- get_text_blocks page ;;
  Ok (text_loop highlight_text current_pg blocks st4).

(** What the page loop has built so far. *)
Record DocState := mkDocState {
  doc_stats : Stats;
  doc_spans : list RecoveredSpan;
  new_doc : list NewPage
}.

Fixpoint page_loop (remove_bbox highlight_text : Z) (page_index : nat)
  (pages : list Page) (d : DocState) : pyresult DocState :=
  match pages with
  | [] => Ok d
  | page :: rest =>
      st <- process_page remove_bbox highlight_text (page_index + 1) page
              (doc_stats d) (doc_spans d) ;;
      page_loop remove_bbox highlight_text (S page_index) rest
        (mkDocState (stats st) (unredacted_spans st) (new_doc d ++ [new_page st]))
  end.

(** An input file: its name and what [fitz.open] answers. *)
Record Document := mkDocument {
  base_fname : string;
  open_doc : pyresult (list Page)
}.

(** What a successful [process_file] leaves behind: the saved document,
    the JSON report and the returned row. *)
Record FileResult := mkFileResult {
  saved_doc : list NewPage;
  original_file : string;
  saved_spans : list RecoveredSpan;
  row : string * Stats
}.

(** [process_file]: [None] is the [except Exception] branch, where
    nothing is saved. *)
Definition process_file (file : Document) (remove_bbox highlight_text : Z)
  : option FileResult :=
  match (pages <- open_doc file ;;
         page_loop remove_bbox highlight_text 0 pages
           (mkDocState (mkStats 0 0 0 0 0) [] [])) with
  | Ok d => Some (mkFileResult (new_doc d) (base_fname file) (doc_spans d)
                               (base_fname file, doc_stats d))
  | Raised => None
  end.

(** What [input_path] is. *)
Inductive InputPath : Type :=
| is_file (file : Document)
| is_dir (files : list Document)
| missing.

(** [if result: log_data.append(result)] *)
Definition log_result (log_data : list (string * Stats))
  (result : option FileResult) : list (string * Stats) :=
  match result with
  | Some r => log_data ++ [row r]
  | None => log_data
  end.

(** [run_operation]: the result of every [process_file] call, in order,
    and [log_data]. *)
Definition run_operation (input_path : InputPath)
  (remove_bbox highlight_text : Z)
  : list (option FileResult) * list (string * Stats) :=
  let files :=
    match input_path with
    | is_file file => [file]
    | is_dir files => files
    | missing => []
    end in
  let results := map (fun f => process_file f remove_bbox highlight_text) files in
  (results, fold_left log_result results []).


(** ** File names and the summary *)

(** The part of [os.path] (POSIX flavour) the script uses, on one-character
    separators. *)
Module posixpath.

Definition sep : N := 47.
Definition extsep : N := 46.

(** [s.rfind(c)]: the highest index of [c] in [s], or [-1]. *)
Fixpoint rfind_from (c : N) (s : str) (i : Z) (found : Z) : Z :=
  match s with
  | [] => found
  | x :: s' => rfind_from c s' (i + 1)%Z (if (x =? c)%N then i else found)
  end.

Definition rfind (c : N) (s : str) : Z := rfind_from c s 0%Z (-1)%Z.

(** [s[i:]] and [s[:i]] for [i >= 0]. *)
Definition slice_from (s : str) (i : Z) : str := skipn (Z.to_nat i) s.
Definition slice_to (s : str) (i : Z) : str := firstn (Z.to_nat i) s.

(** [s.startswith(t)] and [s.endswith(t)]. *)
Fixpoint startswith (s t : str) : bool :=
  match t, s with
  | [], _ => true
  | _ :: _, [] => false
  | c :: t', x :: s' => (x =? c)%N && startswith s' t'
  end.

Definition endswith (s t : str) : bool := startswith (rev s) (rev t).

(** [os.path.basename(p)]: [p[p.rfind('/') + 1:]]. *)
Definition basename (p : str) : str := slice_from p (rfind sep p + 1)%Z.

(** [os.path.splitext(p)]: split at the last dot of the last component,
    unless only dots come before it in that component. *)
Definition splitext (p : str) : str * str :=
  let sepIndex := rfind sep p in
  let dotIndex := rfind extsep p in
  if (sepIndex <? dotIndex)%Z then
    if existsb (fun c => negb (c =? extsep)%N)
               (slice_to (slice_from p (sepIndex + 1)%Z)
                         (dotIndex - (sepIndex + 1))%Z)
    then (slice_to p dotIndex, slice_from p dotIndex)
    else (p, [])
  else (p, []).

(** [os.path.join(a, b)]. *)
Definition join (a b : str) : str :=
  if startswith b [sep] then b
  else if negb (nonempty a) || endswith a [sep] then a ++ b
  else a ++ [sep] ++ b.

End posixpath.

Section Naming.

(** [str.lower]. *)
Variable lower : str -> str.

(** [final_name] of [process_file]; [custom_name] is [None] or a string,
    and the empty string counts as no name. *)
Definition final_name (file_path : str) (custom_name : option str) : str :=
  let base_fname := posixpath.basename file_path in
  let fname_no_ext := fst (posixpath.splitext base_fname) in
  match custom_name with
  | Some (c :: cs) =>
      if posixpath.endswith (lower (c :: cs)) (str_of_string ".pdf")
      then c :: cs
      else (c :: cs) ++ str_of_string ".pdf"
  | _ => fname_no_ext ++ str_of_string "_UNREDACTED.pdf"
  end.

Definition json_name (file_path : str) (custom_name : option str) : str :=
  fst (posixpath.splitext (final_name file_path custom_name))
  ++ str_of_string ".json".

Definition out_path (output_folder file_path : str) (custom_name : option str)
  : str :=
  posixpath.join output_folder (final_name file_path custom_name).

Definition json_path (output_folder file_path : str) (custom_name : option str)
  : str :=
  posixpath.join output_folder (json_name file_path custom_name).

End Naming.

(** The header line of [summary_of_changes.csv]. *)
Definition headers : list string :=
  ["Filename"; "Black_Images"; "White_Images"; "Black_Vectors";
   "White_Vectors"; "Annotations"]%string.

(** The summary [run_operation] writes: nothing when [log_data] is empty,
    the header line and the rows otherwise. *)
Definition summary_csv (log_data : list (string * Stats))
  : option (list string * list (string * Stats)) :=
  match log_data with
  | [] => None
  | _ :: _ => Some (headers, log_data)
  end.

(** * Vocabulary of the properties *)

(** ** The drawing classifier *)

(** A colour is present when the key holds a tuple with a channel. *)
Definition present (c : option Color) : Prop :=
  exists ch rest, c = Some (ch :: rest).

Definition near_black (c : option Color) : Prop :=
  present c /\ Forall (fun x => x < 0.05) (tuple_of c).

Definition near_white (c : option Color) : Prop :=
  present c /\ Forall (fun x => 0.95 < x) (tuple_of c).

Definition large (r : Rect) : Prop := 5 < width r /\ 5 < height r.

Definition stroke_width (path : DrawingPath) : Q :=
  or_default 0 (path_width path).

(** The three rules of the classifier, as the design states them. *)
Definition rule1 (path : DrawingPath) : Prop :=
  near_black (fill path) /\ large (rect path).
Definition rule2 (path : DrawingPath) : Prop :=
  near_black (color path) /\ 10 < stroke_width path.
Definition rule3 (path : DrawingPath) : Prop :=
  near_white (fill path) /\ large (rect path).

(** Some channel of the fill colour lies in [0.05, 0.95]. *)
Definition mid_fill (path : DrawingPath) : Prop :=
  exists ch, In ch (tuple_of (fill path)) /\ 0.05 <= ch /\ ch <= 0.95.

(** The three outcomes of one turn of the loop. *)
Definition redact_black (st : VecState) (path : DrawingPath) : VecState :=
  mkVecState (cleaned_drawings st) (removed_rects st ++ [rect path])
             (S (black_v_removed st)) (white_v_removed st).
Definition redact_white (st : VecState) (path : DrawingPath) : VecState :=
  mkVecState (cleaned_drawings st) (removed_rects st ++ [rect path])
             (black_v_removed st) (S (white_v_removed st)).
Definition kept (st : VecState) (path : DrawingPath) : VecState :=
  mkVecState (cleaned_drawings st ++ [path]) (removed_rects st)
             (black_v_removed st) (white_v_removed st).

Definition rule1b (path : DrawingPath) : bool :=
  truthy (fill path) && all_lt 0.05 (tuple_of (fill path))
  && (Qltb 5 (width (rect path)) && Qltb 5 (height (rect path))).
Definition rule2b (path : DrawingPath) : bool :=
  truthy (color path) && all_lt 0.05 (tuple_of (color path))
  && Qltb 10 (stroke_width path).
Definition rule3b (path : DrawingPath) : bool :=
  truthy (fill path) && all_gt 0.95 (tuple_of (fill path))
  && (Qltb 5 (width (rect path)) && Qltb 5 (height (rect path))).

(** A path the classifier calls a redaction, and the tally it goes to. *)
Definition black_vector (path : DrawingPath) : bool :=
  rule1b path || rule2b path.
Definition white_vector (path : DrawingPath) : bool :=
  negb (black_vector path) && rule3b path.
Definition is_redaction (path : DrawingPath) : bool :=
  black_vector path || white_vector path.

(** ** The raster classifier *)

(** The mean sample value of a non-empty buffer. *)
Definition mean_brightness (pixels : list byte) : Q :=
  inject_Z (sum_pixels pixels) / inject_Z (Z.of_nat (List.length pixels)).

(** The three outcomes of one turn of the image loop that change the state. *)
Definition image_redacted_black (target_rect : Rect) (st : PageState)
  : PageState :=
  add_removed [target_rect] (set_stats incr_black_img st).
Definition image_redacted_white (target_rect : Rect) (st : PageState)
  : PageState :=
  add_removed [target_rect] (set_stats incr_white_img st).
Definition image_kept (target_rect : Rect) (pix : Pixmap) (st : PageState)
  : PageState :=
  put (insert_image target_rect pix) st.

(** The pixel data of an image cannot be read: [fitz.Pixmap(doc, xref)]
    raises, or, when redactions are removed, reading the samples does. *)
Definition undecodable (remove_bbox : Z) (img : Image) : Prop :=
  get_pixmap img = Raised \/
  (remove_bbox = 1%Z /\
   exists pix, get_pixmap img = Ok pix /\
     (pixels <- check_pix_samples pix ;; avg_brightness pixels) = Raised).

(** The same image placed at one rectangle only. *)
Definition placed_once (img : Image) (r : Rect) : Image :=
  mkImage (xref img) (Ok [r]) (get_pixmap img).

(** The same page with another list of images. *)
Definition with_images (page : Page) (imgs : list Image) : Page :=
  mkPage (page_rect page) (page_annots page) (Ok imgs) (get_drawings page)
         (get_text_blocks page).

(** ** What is on an output page *)

Definition images_of (ops : list Op) : list (Rect * Pixmap) :=
  flat_map (fun op => match op with
                      | insert_image r pix => [(r, pix)]
                      | _ => []
                      end) ops.

Definition shapes_of (ops : list Op) : list (list (list DrawCmd * Finish)) :=
  flat_map (fun op => match op with
                      | commit_shape paths => [paths]
                      | _ => []
                      end) ops.

Definition texts_of (ops : list Op) : list (Point * str * Q * (Q * Q * Q)) :=
  flat_map (fun op => match op with
                      | insert_text p t s c => [(p, t, s, c)]
                      | _ => []
                      end) ops.

(** ** The text runs of a page *)

(** The spans of [text_dict["blocks"]], in the order the three nested
    loops visit them. *)
Definition all_spans (blocks : list Block) : list Span :=
  flat_map (fun block =>
              flat_map (fun line => or_nil (spans line)) (or_nil (lines block)))
           blocks.

(** The run has something left once white space is stripped. *)
Definition printable (span : Span) : bool := nonempty (strip (text span)).

(** The bounding box of the run intersects a removed region. *)
Definition covered (removed : list Rect) (span : Span) : Prop :=
  exists r, In r removed /\ intersects (bbox span) r = true.

Definition text_colour (highlight_text : Z) (removed : list Rect) (span : Span)
  : Q * Q * Q :=
  if (highlight_text =? 1)%Z && was_covered (bbox span) removed
  then red else black.

(** What a run adds to the output page. *)
Definition span_ops (highlight_text : Z) (removed : list Rect) (span : Span)
  : list Op :=
  if printable span
  then [insert_text (origin span) (text span) (size span)
                    (text_colour highlight_text removed span)]
  else [].

(** The record of a recovered run. *)
Definition recovered (current_pg : nat) (span : Span) : RecoveredSpan :=
  mkRecovered current_pg (strip (text span)) (coords (bbox span))
              (coords (bbox span)).

(** What a run adds to the report. *)
Definition span_records (current_pg : nat) (removed : list Rect) (span : Span)
  : list RecoveredSpan :=
  if printable span && was_covered (bbox span) removed
  then [recovered current_pg span] else [].

(** A state with more records and more drawing calls. *)
Definition extend (st : PageState) (recs : list RecoveredSpan) (ops : list Op)
  : PageState :=
  mkPageState (stats st) (unredacted_spans st ++ recs)
              (removed_rects_on_page st)
              (mkNewPage (new_width (new_page st)) (new_height (new_page st))
                         (contents (new_page st) ++ ops))
              (deleted_annots st).

(** The same run with another colour in the input. *)
Definition recoloured (span : Span) (c : Z) : Span :=
  mkSpan (text span) (bbox span) (origin span) (size span) c.

Definition placement (t : Point * str * Q * (Q * Q * Q)) : Point * str * Q :=
  let '(p, s, z, _) := t in (p, s, z).

Definition colour_of (t : Point * str * Q * (Q * Q * Q)) : Q * Q * Q :=
  let '(_, _, _, c) := t in c.

(** [st'] differs from [st] at most in the tallies, the removed regions
    and the images and shapes on the page. *)
Definition text_untouched (st st' : PageState) : Prop :=
  unredacted_spans st' = unredacted_spans st /\
  texts_of (contents (new_page st')) = texts_of (contents (new_page st)) /\
  new_width (new_page st') = new_width (new_page st) /\
  new_height (new_page st') = new_height (new_page st).

(** The text a printable run puts on the page. *)
Definition emitted (highlight_text : Z) (removed : list Rect) (span : Span)
  : Point * str * Q * (Q * Q * Q) :=
  (origin span, text span, size span, text_colour highlight_text removed span).

(** ** Pass-through mode *)

(** What an image adds to the output page when nothing is classified:
    itself at its first placement, if that is higher than 10 and the
    pixel data can be decoded. *)
Definition plain_image_ops (img : Image) : list Op :=
  match get_image_rects img with
  | Ok (target_rect :: _) =>
      if Qltb 10 (height target_rect) then
        match get_pixmap img with
        | Ok pix => [insert_image target_rect pix]
        | Raised => []
        end
      else []
  | _ => []
  end.

(** Lines and rectangles. *)
Definition is_straight (cmd : DrawCmd) : bool :=
  match cmd with
  | draw_line _ _ => true
  | draw_rect _ => true
  | _ => false
  end.

(** A redrawn path has the lines and rectangles of the input path, in
    order, and its fill and stroke colours. *)
Definition redrawn_straight (path : DrawingPath)
  (shape : list DrawCmd * Finish) : Prop :=
  filter is_straight (fst shape)
  = filter is_straight (flat_map redraw_item (items path)) /\
  fin_fill (snd shape) = fill path /\
  fin_color (snd shape) = color path.

(** ** Failures *)

(** One of the calls [process_file] makes on the page raises. *)
Definition unreadable (remove_bbox : Z) (page : Page) : Prop :=
  (remove_bbox = 1%Z /\ page_annots page = Raised) \/
  get_images page = Raised \/
  get_drawings page = Raised \/
  get_text_blocks page = Raised.

Definition same_size (page : Page) (np : NewPage) : Prop :=
  new_width np = width (page_rect page) /\
  new_height np = height (page_rect page).

(** The rows of the files that were processed. *)
Definition rows_of (results : list (option FileResult))
  : list (string * Stats) :=
  flat_map (fun result => match result with
                          | Some r => [row r]
                          | None => []
                          end) results.

(** ** The mean brightness, spelled out *)

(** The sum of the samples of a buffer, each a number from 0 to 255, and
    their mean: the sum over the number of samples. *)
Definition sample_total (pixels : list byte) : Z :=
  fold_right Z.add 0%Z (map (fun b => Z.of_N (Byte.to_N b)) pixels).

Definition sample_mean (pixels : list byte) : Q :=
  inject_Z (sample_total pixels) / inject_Z (Z.of_nat (List.length pixels)).

(** * Vocabulary of the further properties *)

(** ** What the image loop decides for one image *)

Inductive ImageVerdict : Type :=
| skipped_image
| removed_black (r : Rect)
| removed_white (r : Rect)
| copied_image (r : Rect) (pix : Pixmap).

Definition image_verdict (remove_bbox : Z) (img : Image) : ImageVerdict :=
  match get_image_rects img with
  | Ok (target_rect :: _) =>
      if Qltb 10 (height target_rect) then
        match get_pixmap img with
        | Ok pix =>
            if (remove_bbox =? 1)%Z then
              match (pixels <- check_pix_samples pix ;; avg_brightness pixels) with
              | Ok avg =>
                  if Qltb avg 15 then removed_black target_rect
                  else if Qltb 240 avg then removed_white target_rect
                  else copied_image target_rect pix
              | Raised => skipped_image
              end
            else copied_image target_rect pix
        | Raised => skipped_image
        end
      else skipped_image
  | _ => skipped_image
  end.

Definition apply_verdict (v : ImageVerdict) (st : PageState) : PageState :=
  match v with
  | skipped_image => st
  | removed_black r => image_redacted_black r st
  | removed_white r => image_redacted_white r st
  | copied_image r pix => image_kept r pix st
  end.

Definition verdict_ops (v : ImageVerdict) : list Op :=
  match v with
  | copied_image r pix => [insert_image r pix]
  | _ => []
  end.

Definition verdict_rects (v : ImageVerdict) : list Rect :=
  match v with
  | removed_black r => [r]
  | removed_white r => [r]
  | _ => []
  end.

Definition is_black_image (v : ImageVerdict) : bool :=
  match v with
  | removed_black _ => true
  | _ => false
  end.

Definition is_white_image (v : ImageVerdict) : bool :=
  match v with
  | removed_white _ => true
  | _ => false
  end.

(** The state after the image loop, from the verdicts. *)
Definition after_images (vs : list ImageVerdict) (st : PageState) : PageState :=
  mkPageState
    (mkStats (black_img (stats st) + List.length (filter is_black_image vs))
             (white_img (stats st) + List.length (filter is_white_image vs))
             (black_vec (stats st)) (white_vec (stats st)) (annots (stats st)))
    (unredacted_spans st)
    (removed_rects_on_page st ++ flat_map verdict_rects vs)
    (mkNewPage (new_width (new_page st)) (new_height (new_page st))
               (contents (new_page st) ++ flat_map verdict_ops vs))
    (deleted_annots st).

(** ** One page, in closed form *)

(** What the library answers for the page, when every call the script
    makes returns. *)
Definition page_inputs (remove_bbox : Z) (page : Page)
  : pyresult (list Annot * list Image * list DrawingPath * list Block) :=
  anns <- (if (remove_bbox =? 1)%Z then page_annots page else Ok []) ;;
  imgs <- get_images page ;;
  drawings <- get_drawings page ;;
  blocks <- get_text_blocks page ;;
  Ok (anns, imgs, drawings, blocks).

(** The vector paths as the drawing step sees them: classified when
    redactions are removed, all kept otherwise. *)
Definition vector_part (remove_bbox : Z) (drawings : list DrawingPath)
  : VecState :=
  if (remove_bbox =? 1)%Z then clean_loop drawings
  else mkVecState drawings [] 0 0.

Definition page_shapes (remove_bbox : Z) (drawings : list DrawingPath)
  : list (list DrawCmd * Finish) :=
  if (remove_bbox =? 1)%Z
  then map redraw_path (cleaned_drawings (clean_loop drawings))
  else map redraw_path_plain drawings.

Definition page_removed (remove_bbox : Z) (imgs : list Image)
  (drawings : list DrawingPath) : list Rect :=
  flat_map verdict_rects (map (image_verdict remove_bbox) imgs)
  ++ removed_rects (vector_part remove_bbox drawings).

Definition page_result (remove_bbox highlight_text : Z) (current_pg : nat)
  (prect : Rect)
  (x : list Annot * list Image * list DrawingPath * list Block)
  (s0 : Stats) (sp0 : list RecoveredSpan) : PageState :=
  let '(anns, imgs, drawings, blocks) := x in
  let vs := map (image_verdict remove_bbox) imgs in
  let v := vector_part remove_bbox drawings in
  let removed := page_removed remove_bbox imgs drawings in
  mkPageState
    (mkStats (black_img s0 + List.length (filter is_black_image vs))
             (white_img s0 + List.length (filter is_white_image vs))
             (black_vec s0 + black_v_removed v)
             (white_vec s0 + white_v_removed v)
             (annots s0 + List.length anns))
    (sp0 ++ flat_map (span_records current_pg removed) (all_spans blocks))
    removed
    (mkNewPage (width prect) (height prect)
       (flat_map verdict_ops vs
        ++ [commit_shape (page_shapes remove_bbox drawings)]
        ++ flat_map (span_ops highlight_text removed) (all_spans blocks)))
    anns.

(** ** Tallies *)

(** The number of marks the statistics count as removed. *)
Definition tally (s : Stats) : nat :=
  black_img s + white_img s + black_vec s + white_vec s.

Definition add_stats (a b : Stats) : Stats :=
  mkStats (black_img a + black_img b) (white_img a + white_img b)
          (black_vec a + black_vec b) (white_vec a + white_vec b)
          (annots a + annots b).

(** A page state on top of earlier statistics and records. *)
Definition shift (s0 : Stats) (sp0 : list RecoveredSpan) (st : PageState)
  : PageState :=
  mkPageState (add_stats s0 (stats st)) (sp0 ++ unredacted_spans st)
              (removed_rects_on_page st) (new_page st) (deleted_annots st).

(** The pages of a document processed one by one, each from empty
    statistics and an empty report, numbered from [page_index + 1]. *)
Fixpoint pages_alone (remove_bbox highlight_text : Z) (page_index : nat)
  (pages : list Page) : pyresult (list PageState) :=
  match pages with
  | [] => Ok []
  | page :: rest =>
      st <- process_page remove_bbox highlight_text (page_index + 1) page
              (mkStats 0 0 0 0 0) [] ;;
      sts <- pages_alone remove_bbox highlight_text (S page_index) rest ;;
      Ok (st :: sts)
  end.

Definition sum_stats (l : list Stats) : Stats :=
  fold_right add_stats (mkStats 0 0 0 0 0) l.

(** ** Redrawn paths *)

(** The segment a drawing call draws. *)
Definition item_of_cmd (cmd : DrawCmd) : Item :=
  match cmd with
  | draw_line p1 p2 => item_l p1 p2
  | draw_rect r => item_re r
  | draw_quad q => item_qu q
  | draw_bezier p1 p2 p3 p4 => item_c p1 p2 p3 p4
  end.

(** A colour key that is missing, [None] or an empty tuple. *)
Definition absent (c : option Color) : Prop := c = None \/ c = Some [].

(** ** The files of a run *)

Definition files_of (input_path : InputPath) : list Document :=
  match input_path with
  | is_file file => [file]
  | is_dir files => files
  | missing => []
  end.

Definition succeeded (remove_bbox highlight_text : Z) (file : Document)
  : bool :=
  match process_file file remove_bbox highlight_text with
  | Some _ => true
  | None => false
  end.

(** No separator in a name. *)
Definition plain_name (s : str) : Prop := ~ In posixpath.sep s.

(** ** The layers of an output page *)

Definition image_op (ip : Rect * Pixmap) : Op :=
  insert_image (fst ip) (snd ip).

Definition text_op (t : Point * str * Q * (Q * Q * Q)) : Op :=
  let '(p, s, z, c) := t in insert_text p s z c.

(** The brightness of an image that was classified lies outside, resp.
    inside, the band [15, 240]. *)
Definition classified (img : Image) (r : Rect) (pix : Pixmap)
  (band : Q -> Prop) : Prop :=
  exists rest pixels,
    get_image_rects img = Ok (r :: rest) /\
    10 < height r /\
    get_pixmap img = Ok pix /\
    check_pix_samples pix = Ok pixels /\
    pixels <> [] /\
    band (mean_brightness pixels).

(** ** The report *)

(** A record of the report is well formed: its text is not empty and has
    no white space at either end, and its two boxes are the same. *)
Definition well_formed_record (x : RecoveredSpan) : Prop :=
  nonempty (rec_text x) = true /\
  strip (rec_text x) = rec_text x /\
  rec_rect x = rec_bbox x.

Definition page_order (a b : RecoveredSpan) : Prop :=
  (rec_page a <= rec_page b)%nat.

(** A string that does not start with white space. *)
Definition head_ok (s : str) : Prop :=
  match s with
  | [] => True
  | c :: _ => isspace c = false
  end.

(** ** Highlighted text *)

Definition is_red (c : Q * Q * Q) : bool :=
  let '(r, g, b) := c in Qeq_bool r 1 && Qeq_bool g 0 && Qeq_bool b 0.

(** The text drawn in red on a page, stripped of white space. *)
Definition red_texts (ops : list Op) : list str :=
  map (fun t => strip (snd (fst (fst t))))
      (filter (fun t => is_red (colour_of t)) (texts_of ops)).

(** ** Names and extensions *)

(** The string holds a character that is not a dot. *)
Definition has_name (s : str) : bool :=
  existsb (fun c => negb (c =? posixpath.extsep)%N) s.

(** * Sample inputs *)

Definition vec0 : VecState := mkVecState [] [] 0 0.

(** A mid-grey filled bar with a thick black outline. *)
Definition grey_bar_black_outline : DrawingPath :=
  mkPath [item_re (mkRect 10 10 110 30)] (mkRect 10 10 110 30)
         (Some [0.5; 0.5; 0.5]) (Some [0; 0; 0]) (Some 12) (Some 1).

(** A black filled bar, 100 by 20. *)
Definition black_bar : DrawingPath :=
  mkPath [item_re (mkRect 10 10 110 30)] (mkRect 10 10 110 30)
         (Some [0; 0; 0]) None None (Some 1).

(** A thick black line on a 100 by 0 rectangle. *)
Definition black_rule : DrawingPath :=
  mkPath [item_l (mkPoint 10 10) (mkPoint 110 10)] (mkRect 10 10 110 10)
         None (Some [0; 0; 0]) (Some 12) None.

(** A white filled bar. *)
Definition white_bar : DrawingPath :=
  mkPath [item_re (mkRect 10 10 110 30)] (mkRect 10 10 110 30)
         (Some [1; 1; 1]) None None (Some 1).

(** A mid-grey filled bar without outline. *)
Definition grey_bar : DrawingPath :=
  mkPath [item_re (mkRect 10 10 110 30)] (mkRect 10 10 110 30)
         (Some [0.5; 0.5; 0.5]) None None (Some 1).

Definition stats0 : Stats := mkStats 0 0 0 0 0.

Definition letter : Rect := mkRect 0 0 612 792.

Definition blank_state : PageState :=
  mkPageState stats0 [] [] (mkNewPage 612 792 []) [].

(** Four samples of a mid-grey, a black and a white RGB image. *)
Definition grey_pix : Pixmap :=
  mkPixmap (Some 3%nat) [x80; x80; x80; x80]%byte (Ok [x80; x80; x80; x80]%byte).
Definition black_pix : Pixmap :=
  mkPixmap (Some 3%nat) [x00; x00; x00; x01]%byte (Ok [x00; x00; x00; x01]%byte).
Definition white_pix : Pixmap :=
  mkPixmap (Some 3%nat) [xff; xff; xff; xfe]%byte (Ok [xff; xff; xff; xfe]%byte).

(** A one-page letter-size document with the given content. *)
Definition one_page (imgs : list Image) (drawings : list DrawingPath)
  (blocks : list Block) : Page :=
  mkPage letter (Ok []) (Ok imgs) (Ok drawings) (Ok blocks).

Definition one_page_doc (imgs : list Image) (drawings : list DrawingPath)
  (blocks : list Block) : Document :=
  mkDocument "a.pdf" (Ok [one_page imgs drawings blocks]).

(** A strip of height exactly 10. *)
Definition strip_rect : Rect := mkRect 0 0 100 10.
Definition strip_image : Image := mkImage 7 (Ok [strip_rect]) (Ok grey_pix).

(** An image 100 by 50 whose pixel data cannot be decoded. *)
Definition photo_rect : Rect := mkRect 0 0 100 50.
Definition corrupt_image : Image := mkImage 8 (Ok [photo_rect]) Raised.

Definition black_image : Image := mkImage 9 (Ok [photo_rect]) (Ok black_pix).

(** An image placed twice. *)
Definition twice_image : Image :=
  mkImage 10 (Ok [photo_rect; mkRect 200 200 300 250]) (Ok grey_pix).

(** A run of text, by its content and bounding box. *)
Definition run (s : string) (b : Rect) : Span :=
  mkSpan (str_of_string s) b (mkPoint (x0 b) (y1 b)) 10 0.

Definition one_run (span : Span) : list Block :=
  [mkBlock (Some [mkLine (Some [span])])].

Definition secret : Span := run "SECRET" (mkRect 20 15 90 25).

(** A run that is a single space, under the black bar. *)
Definition space_run : Span := run " " (mkRect 20 15 90 25).

(** A page whose text cannot be extracted. *)
Definition torn_page : Page := mkPage letter (Ok []) (Ok []) (Ok []) Raised.
Definition torn_doc : Document := mkDocument "b.pdf" (Ok [torn_page]).

(** A path made of one curve, 3 wide. *)
Definition curve : DrawingPath :=
  mkPath [item_c (mkPoint 0 0) (mkPoint 10 20) (mkPoint 20 20) (mkPoint 30 0)]
         (mkRect 0 0 30 20) None (Some [1; 0; 0]) (Some 3) (Some 1).

(** * Further sample inputs *)

(** A page with an annotation, a black image, a grey image, a black bar,
    a curve and the run SECRET under the bar. *)
Definition note : Annot := mkAnnot 21.
Definition grey_image : Image := mkImage 11 (Ok [photo_rect]) (Ok grey_pix).

Definition busy_page : Page :=
  mkPage letter (Ok [note]) (Ok [black_image; grey_image])
         (Ok [black_bar; curve]) (Ok (one_run secret)).

Definition busy_doc : Document := mkDocument "c.pdf" (Ok [busy_page; busy_page]).

(** A small black swatch, 4 by 4, with a hairline black outline. *)
Definition swatch : DrawingPath :=
  mkPath [item_re (mkRect 0 0 4 4)] (mkRect 0 0 4 4)
         (Some [0; 0; 0]) (Some [0; 0; 0]) (Some 1) (Some 1).

(** A path with no colour at all. *)
Definition invisible : DrawingPath :=
  mkPath [item_re (mkRect 0 0 50 50)] (mkRect 0 0 50 50) None (Some []) None None.

(** Paths and names. *)
Definition sample_path : str := str_of_string "/data/in/report.v2.pdf".
Definition sample_folder : str := str_of_string "out".
Definition no_lower : str -> str := fun s => s.

(** * Properties *)

(** ** Comparisons *)

Lemma Qltb_lt (a b : Q) : Qltb a b = true <-> a < b.
Proof.
  unfold Qltb. rewrite negb_true_iff. split; intro H.
  - apply Qnot_le_lt. intro Hle. apply Qle_bool_iff in Hle. congruence.
  - destruct (Qle_bool b a) eqn:E; [|reflexivity].
    apply Qle_bool_iff in E. exfalso. exact (Qlt_not_le _ _ H E).
Qed.

Lemma Qltb_ge (a b : Q) : Qltb a b = false <-> b <= a.
Proof.
  unfold Qltb. rewrite negb_false_iff. apply Qle_bool_iff.
Qed.

Lemma all_lt_Forall (t : Q) (c : list Q) :
  all_lt t c = true <-> Forall (fun x => x < t) c.
Proof.
  unfold all_lt. rewrite forallb_forall, Forall_forall.
  split; intros H x Hx; apply Qltb_lt; auto.
Qed.

Lemma all_gt_Forall (t : Q) (c : list Q) :
  all_gt t c = true <-> Forall (fun x => t < x) c.
Proof.
  unfold all_gt. rewrite forallb_forall, Forall_forall.
  split; intros H x Hx; apply Qltb_lt; auto.
Qed.

(** ** The drawing classifier *)

Lemma truthy_present (c : option Color) : truthy c = true <-> present c.
Proof.
  unfold present. destruct c as [[|ch rest]|]; simpl; split; intro H;
    try discriminate; try reflexivity; eauto;
    destruct H as (ch' & rest' & H); discriminate.
Qed.

Lemma large_iff (r : Rect) :
  Qltb 5 (width r) && Qltb 5 (height r) = true <-> large r.
Proof.
  unfold large. rewrite andb_true_iff, !Qltb_lt. tauto.
Qed.

Lemma rule1b_iff (path : DrawingPath) : rule1b path = true <-> rule1 path.
Proof.
  unfold rule1b, rule1, near_black.
  rewrite !andb_true_iff, truthy_present, all_lt_Forall, !Qltb_lt.
  unfold large. tauto.
Qed.

Lemma rule2b_iff (path : DrawingPath) : rule2b path = true <-> rule2 path.
Proof.
  unfold rule2b, rule2, near_black.
  rewrite !andb_true_iff, truthy_present, all_lt_Forall, Qltb_lt. tauto.
Qed.

Lemma rule3b_iff (path : DrawingPath) : rule3b path = true <-> rule3 path.
Proof.
  unfold rule3b, rule3, near_white.
  rewrite !andb_true_iff, truthy_present, all_gt_Forall, !Qltb_lt.
  unfold large. tauto.
Qed.

(** The three guarded [if]s of the loop body are a first-match cascade. *)
Lemma clean_step_cascade (st : VecState) (path : DrawingPath) :
  clean_step st path =
  if rule1b path then redact_black st path
  else if rule2b path then redact_black st path
  else if rule3b path then redact_white st path
  else kept st path.
Proof.
  unfold clean_step, black_fill_test, black_stroke_test, white_fill_test,
    rule1b, rule2b, rule3b, stroke_width, or_default,
    redact_black, redact_white, kept.
  destruct (truthy (fill path)), (all_lt 0.05 (tuple_of (fill path))),
    (Qltb 5 (width (rect path)) && Qltb 5 (height (rect path))),
    (truthy (color path)), (all_lt 0.05 (tuple_of (color path))),
    (Qltb 10 match path_width path with Some v => v | None => 0 end),
    (all_gt 0.95 (tuple_of (fill path))); reflexivity.
Qed.

(** A fill channel in [0.05, 0.95] rules out the two fill rules. *)
Lemma mid_fill_no_fill_rule (path : DrawingPath) :
  mid_fill path -> ~ rule1 path /\ ~ rule3 path.
Proof.
  intros (ch & Hin & Hlo & Hhi). split; intros [[_ Hall] _];
    rewrite Forall_forall in Hall; specialize (Hall ch Hin).
  - exact (Qlt_not_le _ _ Hall Hlo).
  - exact (Qlt_not_le _ _ Hall Hhi).
Qed.

Lemma mid_fill_keeps (st : VecState) (path : DrawingPath) :
  mid_fill path -> ~ rule2 path -> clean_step st path = kept st path.
Proof.
  intros Hmid H2. destruct (mid_fill_no_fill_rule Hmid) as [H1 H3].
  rewrite clean_step_cascade.
  destruct (rule1b path) eqn:E1; [apply rule1b_iff in E1; tauto|].
  destruct (rule2b path) eqn:E2; [apply rule2b_iff in E2; tauto|].
  destruct (rule3b path) eqn:E3; [apply rule3b_iff in E3; tauto|].
  reflexivity.
Qed.

(** C1 as stated fails: a path with a fill channel in [0.05, 0.95] is
    still a redaction when its stroke is near-black and wider than 10 -
    the fill is mid-grey here, and the path is removed and counted. *)
Lemma grey_fill_black_outline_is_redacted :
  mid_fill grey_bar_black_outline /\
  clean_step vec0 grey_bar_black_outline
  = mkVecState [] [rect grey_bar_black_outline] 1 0.
Proof.
  split.
  - exists 0.5. repeat split; [left; reflexivity | | ]; discriminate.
  - reflexivity.
Qed.

(** C1 (amended): the loop body of [clean_vector_redactions] applies the
    rules in order, first match wins.  Rule 1 (fill present, every
    channel < 0.05, width > 5 and height > 5) and rule 2 (stroke present,
    every channel < 0.05, stroke width > 10) remove the path and add
    exactly 1 to the black-vector tally; rule 3 (fill present, every
    channel > 0.95, width > 5 and height > 5) removes it and adds exactly
    1 to the white-vector tally; when no rule matches the path is kept
    and no tally changes.  A path with a fill channel in [0.05, 0.95]
    matches neither rule 1 nor rule 3, so it is kept unless rule 2
    matches its stroke. *)
Theorem drawing_classifier_rules (st : VecState) (path : DrawingPath) :
  (rule1 path -> clean_step st path = redact_black st path) /\
  (~ rule1 path -> rule2 path -> clean_step st path = redact_black st path) /\
  (~ rule1 path -> ~ rule2 path -> rule3 path ->
   clean_step st path = redact_white st path) /\
  (~ rule1 path -> ~ rule2 path -> ~ rule3 path ->
   clean_step st path = kept st path) /\
  (mid_fill path -> ~ rule1 path /\ ~ rule3 path) /\
  (mid_fill path -> ~ rule2 path -> clean_step st path = kept st path).
Proof.
  rewrite clean_step_cascade.
  pose proof (rule1b_iff path) as R1.
  pose proof (rule2b_iff path) as R2.
  pose proof (rule3b_iff path) as R3.
  repeat apply conj.
  - intro H. apply R1 in H. rewrite H. reflexivity.
  - intros N1 H. apply R2 in H. rewrite H.
    destruct (rule1b path); reflexivity.
  - intros N1 N2 H. apply R3 in H. rewrite H.
    destruct (rule1b path); [tauto|].
    destruct (rule2b path); [tauto|]. reflexivity.
  - intros N1 N2 N3.
    destruct (rule1b path); [tauto|].
    destruct (rule2b path); [tauto|].
    destruct (rule3b path); [tauto|]. reflexivity.
  - intro H. apply (mid_fill_no_fill_rule H).
  - intros Hmid N2. rewrite <- clean_step_cascade.
    apply mid_fill_keeps; assumption.
Qed.

Lemma black_bar_rule1 : rule1 black_bar.
Proof.
  split; [split|split].
  - exists 0, [0; 0]. reflexivity.
  - repeat constructor.
  - reflexivity.
  - reflexivity.
Defined.

Lemma drawing_classifier_rules_witness :
  rule1 black_bar /\
  clean_step vec0 black_bar = redact_black vec0 black_bar.
Proof.
  split.
  - exact black_bar_rule1.
  - exact (proj1 (drawing_classifier_rules vec0 black_bar) black_bar_rule1).
Defined.

(** The whole loop: the kept paths are the paths no rule matches, in
    order; there is one removed rectangle per removed path; the tallies
    count the paths of each kind. *)
Lemma clean_loop_from (drawings : list DrawingPath) (st : VecState) :
  fold_left clean_step drawings st
  = mkVecState
      (cleaned_drawings st
       ++ filter (fun path => negb (is_redaction path)) drawings)
      (removed_rects st ++ map rect (filter is_redaction drawings))
      (black_v_removed st + List.length (filter black_vector drawings))
      (white_v_removed st + List.length (filter white_vector drawings)).
Proof.
  revert st. induction drawings as [|path drawings IH]; intro st; simpl.
  - destruct st. simpl. rewrite !app_nil_r, !Nat.add_0_r. reflexivity.
  - rewrite IH, clean_step_cascade.
    unfold is_redaction, white_vector, black_vector.
    destruct (rule1b path); [|destruct (rule2b path);
                               [|destruct (rule3b path)]]; simpl;
      rewrite <- ?app_assoc, ?Nat.add_succ_r; reflexivity.
Qed.

Lemma clean_loop_filter (drawings : list DrawingPath) :
  clean_loop drawings
  = mkVecState (filter (fun path => negb (is_redaction path)) drawings)
               (map rect (filter is_redaction drawings))
               (List.length (filter black_vector drawings))
               (List.length (filter white_vector drawings)).
Proof. unfold clean_loop. rewrite clean_loop_from. reflexivity. Qed.

(** ** The raster classifier *)

Lemma process_image_no_rect (rb : Z) (st : PageState) (img : Image) :
  get_image_rects img = Ok [] -> process_image rb st img = st.
Proof. unfold process_image. intros ->. reflexivity. Qed.

Lemma process_image_thin (rb : Z) (st : PageState) (img : Image)
  (target_rect : Rect) (rest : list Rect) :
  get_image_rects img = Ok (target_rect :: rest) ->
  height target_rect <= 10 ->
  process_image rb st img = st.
Proof.
  unfold process_image. intros -> Hh.
  apply Qltb_ge in Hh. rewrite Hh. reflexivity.
Qed.

Lemma process_image_undecodable (rb : Z) (st : PageState) (img : Image) :
  undecodable rb img -> process_image rb st img = st.
Proof.
  unfold process_image.
  intros [Hp | (Hrb & pix & Hp & Hs)]; rewrite Hp.
  - destruct (get_image_rects img) as [[|r rest]|]; try reflexivity.
    destruct (Qltb 10 (height r)); reflexivity.
  - subst rb. simpl. rewrite Hs.
    destruct (get_image_rects img) as [[|r rest]|]; try reflexivity.
    destruct (Qltb 10 (height r)); reflexivity.
Qed.

(** The outcome of a classified image, by its mean brightness. *)
Lemma process_image_classified (st : PageState) (img : Image)
  (target_rect : Rect) (rest : list Rect) (pix : Pixmap) (pixels : list byte) :
  get_image_rects img = Ok (target_rect :: rest) ->
  10 < height target_rect ->
  get_pixmap img = Ok pix ->
  check_pix_samples pix = Ok pixels ->
  pixels <> [] ->
  process_image 1 st img =
  if Qltb (mean_brightness pixels) 15 then image_redacted_black target_rect st
  else if Qltb 240 (mean_brightness pixels)
       then image_redacted_white target_rect st
       else image_kept target_rect pix st.
Proof.
  unfold process_image. intros -> Hh -> Hs Hne.
  apply Qltb_lt in Hh. rewrite Hh. simpl. rewrite Hs. simpl.
  destruct pixels as [|b pixels']; [congruence|].
  unfold avg_brightness. fold (mean_brightness (b :: pixels')).
  destruct (Qltb (mean_brightness (b :: pixels')) 15) eqn:E1;
    destruct (Qltb 240 (mean_brightness (b :: pixels'))) eqn:E2;
    try reflexivity.
  apply Qltb_lt in E1, E2. exfalso.
  assert (H : 240 < 15) by (eapply Qlt_trans; eauto).
  discriminate H.
Qed.

Lemma byte_val_range (b : byte) : (0 <= byte_val b <= 255)%Z.
Proof.
  unfold byte_val. pose proof (Byte.to_N_bounded b). lia.
Qed.

Lemma sum_pixels_range (pixels : list byte) :
  (0 <= sum_pixels pixels <= 255 * Z.of_nat (List.length pixels))%Z.
Proof.
  induction pixels as [|b pixels IH]; simpl.
  - lia.
  - pose proof (byte_val_range b). lia.
Qed.

(** The mean of a non-empty buffer is a brightness on the 0-255 scale. *)
Lemma mean_brightness_range (pixels : list byte) :
  pixels <> [] -> 0 <= mean_brightness pixels /\ mean_brightness pixels <= 255.
Proof.
  intro Hne. unfold mean_brightness.
  pose proof (sum_pixels_range pixels) as [Hlo Hhi].
  assert (Hn : (0 < Z.of_nat (List.length pixels))%Z)
    by (destruct pixels; [congruence | simpl; lia]).
  assert (HnQ : 0 < inject_Z (Z.of_nat (List.length pixels)))
    by (unfold Qlt; simpl; lia).
  split.
  - apply Qle_shift_div_l; [exact HnQ|].
    rewrite Qmult_0_l. change 0 with (inject_Z 0).
    rewrite <- Zle_Qle. exact Hlo.
  - apply Qle_shift_div_r; [exact HnQ|].
    change 255 with (inject_Z 255).
    rewrite <- inject_Z_mult, <- Zle_Qle. exact Hhi.
Qed.

Lemma sum_pixels_total (pixels : list byte) :
  sum_pixels pixels = sample_total pixels.
Proof.
  induction pixels as [|b pixels IH]; simpl; [reflexivity|].
  unfold byte_val. rewrite IH. reflexivity.
Qed.

Lemma mean_brightness_sample_mean (pixels : list byte) :
  mean_brightness pixels = sample_mean pixels.
Proof.
  unfold mean_brightness, sample_mean. rewrite sum_pixels_total. reflexivity.
Qed.

(** C4: an image whose first placement is higher than 10 and whose
    samples can be read is classified, when redactions are removed, by
    the mean of its samples - those of the RGB conversion when the image
    has more than 3 channels, its own otherwise - which is the sum of the
    samples over their number, a number between 0 and 255.  Mean < 15:
    redaction; the black-image tally grows by exactly one and nothing
    else of the statistics changes, the rectangle is added to the
    removed regions, and the output page is left as it is (the image is
    not inserted).  Mean > 240: the same with the white-image tally.
    Mean in (15, 240) (and at 15 and 240): kept; no tally changes, no
    region is added, and the image is inserted into the output page at
    its rectangle, after what is already there. *)
Theorem raster_classifier_thresholds (st : PageState) (img : Image)
  (target_rect : Rect) (rest : list Rect) (pix : Pixmap) (pixels : list byte) :
  get_image_rects img = Ok (target_rect :: rest) ->
  10 < height target_rect ->
  get_pixmap img = Ok pix ->
  check_pix_samples pix = Ok pixels ->
  pixels <> [] ->
  (0 <= sample_mean pixels /\ sample_mean pixels <= 255) /\
  (forall n, colorspace_n pix = Some n ->
     ((3 < n)%nat -> rgb_samples pix = Ok pixels) /\
     ((n <= 3)%nat -> samples pix = pixels)) /\
  (sample_mean pixels < 15 ->
   process_image 1 st img
   = mkPageState
       (mkStats (S (black_img (stats st))) (white_img (stats st))
                (black_vec (stats st)) (white_vec (stats st))
                (annots (stats st)))
       (unredacted_spans st)
       (removed_rects_on_page st ++ [target_rect])
       (new_page st)
       (deleted_annots st)) /\
  (240 < sample_mean pixels ->
   process_image 1 st img
   = mkPageState
       (mkStats (black_img (stats st)) (S (white_img (stats st)))
                (black_vec (stats st)) (white_vec (stats st))
                (annots (stats st)))
       (unredacted_spans st)
       (removed_rects_on_page st ++ [target_rect])
       (new_page st)
       (deleted_annots st)) /\
  (15 <= sample_mean pixels -> sample_mean pixels <= 240 ->
   process_image 1 st img
   = mkPageState
       (stats st)
       (unredacted_spans st)
       (removed_rects_on_page st)
       (mkNewPage (new_width (new_page st)) (new_height (new_page st))
                  (contents (new_page st)
                   ++ [insert_image target_rect pix]))
       (deleted_annots st)).
Proof.
  intros Hr Hh Hp Hs Hne.
  pose proof (process_image_classified st img Hr Hh Hp Hs Hne) as Hc.
  rewrite <- mean_brightness_sample_mean.
  split; [|split; [|split; [|split]]].
  - apply mean_brightness_range; assumption.
  - intros n Hn. unfold check_pix_samples in Hs. rewrite Hn in Hs.
    split; intro Hcmp.
    + apply Nat.ltb_lt in Hcmp. rewrite Hcmp in Hs. exact Hs.
    + destruct (3 <? n)%nat eqn:E; [apply Nat.ltb_lt in E; lia|].
      congruence.
  - intro Hlt. apply Qltb_lt in Hlt. rewrite Hlt in Hc. exact Hc.
  - intro Hgt.
    assert (E1 : Qltb (mean_brightness pixels) 15 = false).
    { apply Qltb_ge. apply Qlt_le_weak. eapply Qlt_trans; [|exact Hgt].
      reflexivity. }
    apply Qltb_lt in Hgt. rewrite E1, Hgt in Hc. exact Hc.
  - intros Hlo Hhi. apply Qltb_ge in Hlo, Hhi.
    rewrite Hlo, Hhi in Hc. exact Hc.
Qed.

Lemma raster_classifier_thresholds_witness :
  sample_mean (samples black_pix) < 15 /\
  process_image 1 blank_state black_image
  = mkPageState (mkStats 1 0 0 0 0) [] [photo_rect]
                (mkNewPage 612 792 []) [].
Proof.
  split.
  - reflexivity.
  - refine (proj1 (proj2 (proj2
      (@raster_classifier_thresholds blank_state black_image photo_rect []
         black_pix (samples black_pix) eq_refl _ eq_refl eq_refl _))) _).
    + reflexivity.
    + discriminate.
    + reflexivity.
Defined.

(** C3 as stated fails: an image whose placement has height exactly 10
    is not classified, but it is not copied into the output page either. *)
Lemma strip_image_is_not_copied :
  height strip_rect <= 10 /\
  get_pixmap strip_image = Ok grey_pix /\
  exists r, process_file (one_page_doc [strip_image] [] []) 1 1 = Some r /\
            flat_map (fun pg => images_of (contents pg)) (saved_doc r) = [].
Proof.
  split; [discriminate|]. split; [reflexivity|].
  eexists. split; reflexivity.
Qed.

(** C3 (amended): an image whose placement rectangle has height <= 10
    (10 included) is passed over, whatever its brightness and in either
    mode: it is not classified, no tally changes, no removed region is
    recorded for it, and it is not copied into the output page - the
    state of the page is the one before the image. *)
Theorem thin_image_passed_over (remove_bbox : Z) (st : PageState)
  (img : Image) (target_rect : Rect) (rest : list Rect) :
  get_image_rects img = Ok (target_rect :: rest) ->
  height target_rect <= 10 ->
  process_image remove_bbox st img = st /\
  images_of (contents (new_page (process_image remove_bbox st img)))
  = images_of (contents (new_page st)) /\
  removed_rects_on_page (process_image remove_bbox st img)
  = removed_rects_on_page st /\
  stats (process_image remove_bbox st img) = stats st.
Proof.
  intros Hr Hh.
  rewrite (process_image_thin remove_bbox st img Hr Hh). auto.
Qed.

Lemma thin_image_passed_over_witness :
  height strip_rect <= 10 /\
  process_image 1 blank_state strip_image = blank_state.
Proof.
  split.
  - discriminate.
  - refine (proj1 (@thin_image_passed_over 1 blank_state strip_image
                     strip_rect [] eq_refl _)).
    discriminate.
Defined.

Lemma image_loop_app (rb : Z) (l1 l2 : list Image) (st : PageState) :
  image_loop rb (l1 ++ l2) st = image_loop rb l2 (image_loop rb l1 st).
Proof. unfold image_loop. apply fold_left_app. Qed.

Lemma image_loop_skip (rb : Z) (before after : list Image) (img : Image)
  (st : PageState) :
  (forall s, process_image rb s img = s) ->
  image_loop rb (before ++ img :: after) st = image_loop rb (before ++ after) st.
Proof.
  intro Hskip. rewrite !image_loop_app.
  unfold image_loop at 1. simpl. rewrite Hskip. reflexivity.
Qed.

Lemma process_page_skip (rb hl : Z) (pg : nat) (page : Page) (s0 : Stats)
  (sp0 : list RecoveredSpan) (before after : list Image) (img : Image) :
  get_images page = Ok (before ++ img :: after) ->
  (forall s, process_image rb s img = s) ->
  process_page rb hl pg page s0 sp0
  = process_page rb hl pg (with_images page (before ++ after)) s0 sp0.
Proof.
  intros Himgs Hskip.
  unfold process_page, annot_step, drawing_step, clean_vector_redactions.
  simpl. rewrite Himgs.
  destruct (rb =? 1)%Z; simpl.
  - destruct (page_annots page); simpl; [|reflexivity].
    rewrite image_loop_skip by exact Hskip. reflexivity.
  - rewrite image_loop_skip by exact Hskip. reflexivity.
Qed.

(** C7 as stated fails: an image whose pixel data cannot be decoded does
    not remain in the output page, and nothing of the failure is kept:
    the saved document, the report and the statistics are those of the
    same file without the image. *)
Lemma corrupt_image_vanishes :
  get_pixmap corrupt_image = Raised /\
  process_file (one_page_doc [corrupt_image] [] []) 1 1
  = process_file (one_page_doc [] [] []) 1 1 /\
  exists r, process_file (one_page_doc [corrupt_image] [] []) 1 1 = Some r /\
            flat_map (fun pg => images_of (contents pg)) (saved_doc r) = [].
Proof.
  split; [reflexivity|]. split; [reflexivity|].
  eexists. split; reflexivity.
Qed.

(** C7 (amended): an image whose pixel data cannot be decoded is passed
    over without classification: it is not inserted into the output
    page, no removed region and no tally is recorded for it, and nothing
    of the failure is logged or counted.  The failure is not propagated:
    the other images and the rest of the page are processed, with the
    result the page has without that image. *)
Theorem undecodable_image_passed_over (remove_bbox highlight_text : Z)
  (current_pg : nat) (page : Page) (s0 : Stats) (sp0 : list RecoveredSpan)
  (before after : list Image) (img : Image) :
  get_images page = Ok (before ++ img :: after) ->
  undecodable remove_bbox img ->
  (forall st, process_image remove_bbox st img = st) /\
  process_page remove_bbox highlight_text current_pg page s0 sp0
  = process_page remove_bbox highlight_text current_pg
      (with_images page (before ++ after)) s0 sp0.
Proof.
  intros Himgs Hbad.
  assert (Hskip : forall st, process_image remove_bbox st img = st)
    by (intro st; apply process_image_undecodable; exact Hbad).
  split; [exact Hskip|].
  apply process_page_skip with (img := img); assumption.
Qed.

Lemma undecodable_image_passed_over_witness :
  undecodable 1 corrupt_image /\
  process_page 1 1 1 (one_page [corrupt_image] [] []) stats0 []
  = process_page 1 1 1 (one_page [] [] []) stats0 [].
Proof.
  assert (Hbad : undecodable 1 corrupt_image) by (left; reflexivity).
  split; [exact Hbad|].
  exact (proj2 (@undecodable_image_passed_over 1 1 1
                  (one_page [corrupt_image] [] []) stats0 [] [] []
                  corrupt_image eq_refl Hbad)).
Defined.

(** C10: of the rectangles an image is placed at, only the first is
    used.  The image is processed as if it were placed at that rectangle
    alone (so the height and the brightness tests see nothing else); the
    output page gains at most one copy of the image, at that rectangle,
    and the removed regions gain at most that rectangle, so the other
    placements appear nowhere.  An image with no placement is dropped. *)
Theorem first_placement_only (remove_bbox : Z) (st : PageState) (img : Image) :
  (get_image_rects img = Ok [] -> process_image remove_bbox st img = st) /\
  (forall target_rect rest,
     get_image_rects img = Ok (target_rect :: rest) ->
     process_image remove_bbox st img
     = process_image remove_bbox st (placed_once img target_rect) /\
     (contents (new_page (process_image remove_bbox st img))
      = contents (new_page st) \/
      exists pix,
        contents (new_page (process_image remove_bbox st img))
        = contents (new_page st) ++ [insert_image target_rect pix]) /\
     (removed_rects_on_page (process_image remove_bbox st img)
      = removed_rects_on_page st \/
      removed_rects_on_page (process_image remove_bbox st img)
      = removed_rects_on_page st ++ [target_rect])).
Proof.
  split.
  - apply process_image_no_rect.
  - intros target_rect rest Hr. unfold process_image, placed_once. simpl.
    rewrite Hr.
    destruct (Qltb 10 (height target_rect)); [|auto].
    destruct (get_pixmap img) as [pix|]; [|auto].
    destruct (remove_bbox =? 1)%Z.
    + destruct (pixels <- check_pix_samples pix;; avg_brightness pixels)
        as [avg|]; [|auto].
      destruct (Qltb avg 15), (Qltb 240 avg); simpl;
        (split; [reflexivity|]); split;
        solve [left; reflexivity | right; reflexivity
              | right; eexists; reflexivity].
    + simpl. split; [reflexivity|]. split.
      * right. eexists. reflexivity.
      * left. reflexivity.
Qed.

Lemma first_placement_only_witness :
  get_image_rects twice_image = Ok [photo_rect; mkRect 200 200 300 250] /\
  process_image 1 blank_state twice_image
  = process_image 1 blank_state (placed_once twice_image photo_rect).
Proof.
  split; [reflexivity|].
  exact (proj1 (proj2 (first_placement_only 1 blank_state twice_image)
                  photo_rect [mkRect 200 200 300 250] eq_refl)).
Defined.

(** ** The text loop *)

Lemma was_covered_iff (b : Rect) (rects : list Rect) :
  was_covered b rects = true <-> exists r, In r rects /\ intersects b r = true.
Proof.
  induction rects as [|r rects IH]; simpl.
  - split; [discriminate | intros (r & [] & _)].
  - destruct (intersects b r) eqn:E.
    + split; [|reflexivity]. intros _. exists r. auto.
    + rewrite IH. split.
      * intros (r' & Hin & Hr'). exists r'. auto.
      * intros (r' & [<- | Hin] & Hr'); [congruence|]. exists r'. auto.
Qed.

Lemma extend_nil (st : PageState) : extend st [] [] = st.
Proof.
  destruct st as [s sp rm [w h c] d]. unfold extend. simpl.
  rewrite !app_nil_r. reflexivity.
Qed.

Lemma extend_extend (st : PageState) (r1 r2 : list RecoveredSpan)
  (o1 o2 : list Op) :
  extend (extend st r1 o1) r2 o2 = extend st (r1 ++ r2) (o1 ++ o2).
Proof.
  unfold extend. simpl. rewrite !app_assoc. reflexivity.
Qed.

Lemma process_span_extend (hl : Z) (pg : nat) (st : PageState) (span : Span) :
  process_span hl pg st span
  = extend st (span_records pg (removed_rects_on_page st) span)
              (span_ops hl (removed_rects_on_page st) span).
Proof.
  unfold process_span, span_records, span_ops, printable, text_colour,
    recovered.
  destruct (nonempty (strip (text span))); simpl.
  - destruct (was_covered (bbox span) (removed_rects_on_page st)).
    + unfold put, add_span, extend. simpl. reflexivity.
    + destruct st as [s sp rm [w h c] d]. unfold put, extend. simpl.
      rewrite app_nil_r. rewrite andb_false_r. reflexivity.
  - symmetry. apply extend_nil.
Qed.

Lemma span_loop_extend (hl : Z) (pg : nat) (l : list Span) (st : PageState) :
  fold_left (process_span hl pg) l st
  = extend st (flat_map (span_records pg (removed_rects_on_page st)) l)
              (flat_map (span_ops hl (removed_rects_on_page st)) l).
Proof.
  revert st. induction l as [|span l IH]; intro st; simpl.
  - symmetry. apply extend_nil.
  - rewrite IH, process_span_extend, extend_extend. reflexivity.
Qed.

Lemma line_loop_extend (hl : Z) (pg : nat) (l : list Line) (st : PageState) :
  fold_left (process_line hl pg) l st
  = extend st
      (flat_map (span_records pg (removed_rects_on_page st))
                (flat_map (fun line => or_nil (spans line)) l))
      (flat_map (span_ops hl (removed_rects_on_page st))
                (flat_map (fun line => or_nil (spans line)) l)).
Proof.
  revert st. induction l as [|line l IH]; intro st; simpl.
  - symmetry. apply extend_nil.
  - rewrite IH. unfold process_line at 1 2 3. rewrite span_loop_extend.
    simpl. rewrite extend_extend, !flat_map_app. reflexivity.
Qed.

(** The text loop adds, run by run, the records and the text of the
    printable runs, and nothing else. *)
Lemma text_loop_extend (hl : Z) (pg : nat) (blocks : list Block)
  (st : PageState) :
  text_loop hl pg blocks st
  = extend st
      (flat_map (span_records pg (removed_rects_on_page st)) (all_spans blocks))
      (flat_map (span_ops hl (removed_rects_on_page st)) (all_spans blocks)).
Proof.
  unfold text_loop, all_spans.
  revert st. induction blocks as [|block blocks IH]; intro st; simpl.
  - symmetry. apply extend_nil.
  - rewrite IH. unfold process_block at 1 2 3. rewrite line_loop_extend.
    simpl. rewrite extend_extend, !flat_map_app. reflexivity.
Qed.

(** ** One page *)

Lemma texts_of_app (a b : list Op) : texts_of (a ++ b) = texts_of a ++ texts_of b.
Proof. unfold texts_of. apply flat_map_app. Qed.

Lemma text_untouched_refl (st : PageState) : text_untouched st st.
Proof. unfold text_untouched. auto. Qed.

Lemma text_untouched_trans (a b c : PageState) :
  text_untouched a b -> text_untouched b c -> text_untouched a c.
Proof.
  unfold text_untouched. intros (H1 & H2 & H3 & H4) (K1 & K2 & K3 & K4).
  repeat split; congruence.
Qed.

Lemma text_untouched_stats (f : Stats -> Stats) (st : PageState) :
  text_untouched st (set_stats f st).
Proof. unfold text_untouched. simpl. auto. Qed.

Lemma text_untouched_removed (rs : list Rect) (st : PageState) :
  text_untouched st (add_removed rs st).
Proof. unfold text_untouched. simpl. auto. Qed.

Lemma text_untouched_image (r : Rect) (pix : Pixmap) (st : PageState) :
  text_untouched st (put (insert_image r pix) st).
Proof.
  unfold text_untouched. simpl. rewrite texts_of_app. simpl.
  rewrite app_nil_r. auto.
Qed.

Lemma text_untouched_shape (paths : list (list DrawCmd * Finish))
  (st : PageState) :
  text_untouched st (put (commit_shape paths) st).
Proof.
  unfold text_untouched. simpl. rewrite texts_of_app. simpl.
  rewrite app_nil_r. auto.
Qed.

Create HintDb frame.

#[local] Hint Resolve text_untouched_refl text_untouched_stats
  text_untouched_removed text_untouched_image text_untouched_shape : frame.

Lemma process_image_text_untouched (rb : Z) (st : PageState) (img : Image) :
  text_untouched st (process_image rb st img).
Proof.
  unfold process_image.
  destruct (get_image_rects img) as [[|r rest]|]; auto with frame.
  destruct (Qltb 10 (height r)); auto with frame.
  destruct (get_pixmap img) as [pix|]; auto with frame.
  destruct (rb =? 1)%Z; auto with frame.
  destruct (pixels <- check_pix_samples pix;; avg_brightness pixels)
    as [avg|]; auto with frame.
  destruct (Qltb avg 15), (Qltb 240 avg); unfold text_untouched; simpl;
    rewrite ?texts_of_app; simpl; rewrite ?app_nil_r; auto.
Qed.

Lemma image_loop_text_untouched (rb : Z) (imgs : list Image) (st : PageState) :
  text_untouched st (image_loop rb imgs st).
Proof.
  unfold image_loop. revert st.
  induction imgs as [|img imgs IH]; intro st; simpl; auto with frame.
  eapply text_untouched_trans; [apply process_image_text_untouched | apply IH].
Qed.

Lemma drawing_step_text_untouched (rb : Z) (page : Page) (st st' : PageState) :
  drawing_step rb page st = Ok st' -> text_untouched st st'.
Proof.
  unfold drawing_step, clean_vector_redactions.
  destruct (rb =? 1)%Z; destruct (get_drawings page) as [ds|]; simpl;
    intro H; inversion H; subst; clear H.
  - eapply text_untouched_trans; [|apply text_untouched_shape].
    eapply text_untouched_trans; [|apply text_untouched_removed].
    apply text_untouched_stats.
  - apply text_untouched_shape.
Qed.

(** A page that is processed is the text loop run on a page that has no
    text yet, the size of the input page, and the records of the pages
    before. *)
Lemma process_page_text (rb hl : Z) (pg : nat) (page : Page) (s0 : Stats)
  (sp0 : list RecoveredSpan) (st : PageState) :
  process_page rb hl pg page s0 sp0 = Ok st ->
  exists blocks st4,
    get_text_blocks page = Ok blocks /\
    st = text_loop hl pg blocks st4 /\
    unredacted_spans st4 = sp0 /\
    texts_of (contents (new_page st4)) = [] /\
    new_width (new_page st4) = width (page_rect page) /\
    new_height (new_page st4) = height (page_rect page).
Proof.
  unfold process_page.
  destruct (annot_step rb page _) as [st1|] eqn:Ea; simpl; [|discriminate].
  destruct (get_images page) as [imgs|]; simpl; [|discriminate].
  destruct (drawing_step rb page _) as [st4|] eqn:Ed; simpl; [|discriminate].
  destruct (get_text_blocks page) as [blocks|]; simpl; [|discriminate].
  intro H. inversion H; subst; clear H.
  exists blocks, st4. split; [reflexivity|]. split; [reflexivity|].
  apply drawing_step_text_untouched in Ed.
  pose proof (image_loop_text_untouched rb imgs
    (mkPageState (stats st1) (unredacted_spans st1) (removed_rects_on_page st1)
       (mkNewPage (width (page_rect page)) (height (page_rect page)) [])
       (deleted_annots st1))) as Hi.
  destruct (text_untouched_trans Hi Ed) as (H1 & H2 & H3 & H4).
  simpl in *.
  assert (Hsp : unredacted_spans st1 = sp0).
  { unfold annot_step in Ea. destruct (rb =? 1)%Z.
    - destruct (page_annots page); simpl in Ea; inversion Ea; reflexivity.
    - inversion Ea; reflexivity. }
  repeat split; congruence.
Qed.

Lemma texts_of_span_ops (hl : Z) (removed : list Rect) (l : list Span) :
  texts_of (flat_map (span_ops hl removed) l)
  = map (emitted hl removed) (filter printable l).
Proof.
  induction l as [|span l IH]; simpl; [reflexivity|].
  rewrite texts_of_app, IH. unfold span_ops at 1.
  destruct (printable span); reflexivity.
Qed.

(** The text on an output page: the printable runs of the input page, in
    order, coloured by [text_colour]. *)
Lemma page_texts (rb hl : Z) (pg : nat) (page : Page) (s0 : Stats)
  (sp0 : list RecoveredSpan) (st : PageState) (blocks : list Block) :
  process_page rb hl pg page s0 sp0 = Ok st ->
  get_text_blocks page = Ok blocks ->
  texts_of (contents (new_page st))
  = map (emitted hl (removed_rects_on_page st))
        (filter printable (all_spans blocks)).
Proof.
  intros Hp Hb.
  destruct (process_page_text _ _ _ _ _ _ Hp)
    as (blocks' & st4 & Hb' & -> & _ & Ht & _).
  rewrite Hb in Hb'. inversion Hb'; subst blocks'.
  rewrite text_loop_extend. simpl.
  rewrite texts_of_app, Ht, texts_of_span_ops. reflexivity.
Qed.

(** The records a page adds to the report. *)
Lemma page_records (rb hl : Z) (pg : nat) (page : Page) (s0 : Stats)
  (sp0 : list RecoveredSpan) (st : PageState) (blocks : list Block) :
  process_page rb hl pg page s0 sp0 = Ok st ->
  get_text_blocks page = Ok blocks ->
  unredacted_spans st
  = sp0 ++ flat_map (span_records pg (removed_rects_on_page st))
                    (all_spans blocks).
Proof.
  intros Hp Hb.
  destruct (process_page_text _ _ _ _ _ _ Hp)
    as (blocks' & st4 & Hb' & -> & Hs & _).
  rewrite Hb in Hb'. inversion Hb'; subst blocks'.
  rewrite text_loop_extend. simpl. rewrite Hs. reflexivity.
Qed.

(** C5 as stated fails: a run that is white space only is on the input
    page and nowhere on the output page. *)
Lemma blank_run_is_omitted :
  In space_run (all_spans (one_run space_run)) /\
  exists r,
    process_file (one_page_doc [] [] (one_run space_run)) 1 1 = Some r /\
    flat_map (fun pg => texts_of (contents pg)) (saved_doc r) = [].
Proof.
  split; [left; reflexivity|].
  eexists. split; reflexivity.
Qed.

(** C5 (amended): the text on an output page is, run by run and in
    order, the text of the runs of the input page that are not empty once
    white space is stripped: each of them is there once, at its origin
    and font size, with its text content unchanged (not stripped),
    whether it was covered or not.  Runs of white space only are left
    out. *)
Theorem printable_runs_reemitted (remove_bbox highlight_text : Z)
  (current_pg : nat) (page : Page) (s0 : Stats) (sp0 : list RecoveredSpan)
  (st : PageState) (blocks : list Block) :
  process_page remove_bbox highlight_text current_pg page s0 sp0 = Ok st ->
  get_text_blocks page = Ok blocks ->
  map placement (texts_of (contents (new_page st)))
  = map (fun span => (origin span, text span, size span))
        (filter printable (all_spans blocks)) /\
  (forall span, In span (all_spans blocks) -> printable span = true ->
     exists c, In (origin span, text span, size span, c)
                  (texts_of (contents (new_page st)))).
Proof.
  intros Hp Hb. rewrite (page_texts _ _ _ _ _ _ Hp Hb). split.
  - rewrite map_map. reflexivity.
  - intros span Hin Hpr.
    exists (text_colour highlight_text (removed_rects_on_page st) span).
    change (In (emitted highlight_text (removed_rects_on_page st) span)
               (map (emitted highlight_text (removed_rects_on_page st))
                    (filter printable (all_spans blocks)))).
    apply in_map. apply filter_In. auto.
Qed.

Lemma printable_runs_reemitted_witness :
  exists st,
    process_page 1 1 1 (one_page [] [black_bar] (one_run secret)) stats0 []
    = Ok st /\
    map placement (texts_of (contents (new_page st)))
    = [(origin secret, text secret, size secret)].
Proof.
  eexists. split; [reflexivity|].
  exact (proj1 (@printable_runs_reemitted 1 1 1
                  (one_page [] [black_bar] (one_run secret)) stats0 [] _
                  (one_run secret) eq_refl eq_refl)).
Defined.

Lemma span_records_cases (pg : nat) (removed : list Rect) (span : Span) :
  (printable span = true /\ covered removed span ->
   span_records pg removed span = [recovered pg span]) /\
  (~ (printable span = true /\ covered removed span) ->
   span_records pg removed span = []).
Proof.
  unfold span_records, covered.
  pose proof (was_covered_iff (bbox span) removed) as Hc.
  destruct (printable span), (was_covered (bbox span) removed); simpl; split;
    intros H; try reflexivity.
  - exfalso. apply H. split; [reflexivity|]. apply Hc. reflexivity.
  - destruct H as [_ H]. apply Hc in H. discriminate.
  - destruct H as [H _]. discriminate.
  - destruct H as [H _]. discriminate.
Qed.

(** C6 as stated fails: a run of white space whose bounding box lies
    inside a removed bar gets no record, though the two intersect. *)
Lemma covered_blank_run_not_recorded :
  intersects (bbox space_run) (rect black_bar) = true /\
  exists r,
    process_file (one_page_doc [] [black_bar] (one_run space_run)) 1 1
    = Some r /\
    black_vec (snd (row r)) = 1%nat /\
    saved_spans r = [].
Proof.
  split; [reflexivity|].
  eexists. split; [reflexivity|]. split; reflexivity.
Qed.

(** C6 (amended): the records a page adds to the report are, run by run
    and in order, those of its runs: a run that is not empty once white
    space is stripped gets a record if and only if its bounding box
    intersects at least one removed region of the page (containment is
    not required), and then exactly one, however many regions it
    intersects; a run that intersects no removed region, and a run of
    white space only, get none. *)
Theorem recovered_iff_intersects (remove_bbox highlight_text : Z)
  (current_pg : nat) (page : Page) (s0 : Stats) (sp0 : list RecoveredSpan)
  (st : PageState) (blocks : list Block) :
  process_page remove_bbox highlight_text current_pg page s0 sp0 = Ok st ->
  get_text_blocks page = Ok blocks ->
  unredacted_spans st
  = sp0 ++ flat_map (span_records current_pg (removed_rects_on_page st))
                    (all_spans blocks) /\
  (forall span,
     (printable span = true /\ covered (removed_rects_on_page st) span ->
      span_records current_pg (removed_rects_on_page st) span
      = [recovered current_pg span]) /\
     (~ (printable span = true /\ covered (removed_rects_on_page st) span) ->
      span_records current_pg (removed_rects_on_page st) span = [])).
Proof.
  intros Hp Hb. split.
  - exact (page_records _ _ _ _ _ _ Hp Hb).
  - intro span. apply span_records_cases.
Qed.

Lemma recovered_iff_intersects_witness :
  exists st,
    process_page 1 1 1 (one_page [] [black_bar] (one_run secret)) stats0 []
    = Ok st /\
    unredacted_spans st = [recovered 1 secret].
Proof.
  eexists. split; [reflexivity|].
  exact (proj1 (@recovered_iff_intersects 1 1 1
                  (one_page [] [black_bar] (one_run secret)) stats0 [] _
                  (one_run secret) eq_refl eq_refl)).
Defined.

(** ** Pass-through mode *)

Lemma process_image_plain (rb : Z) (st : PageState) (img : Image) :
  (rb =? 1)%Z = false ->
  process_image rb st img = extend st [] (plain_image_ops img).
Proof.
  intro Hrb. unfold process_image, plain_image_ops. rewrite Hrb.
  destruct (get_image_rects img) as [[|r rest]|];
    try (symmetry; apply extend_nil).
  destruct (Qltb 10 (height r)); [|symmetry; apply extend_nil].
  destruct (get_pixmap img) as [pix|]; [|symmetry; apply extend_nil].
  destruct st as [s sp rm [w h c] d]. unfold put, extend. simpl.
  rewrite app_nil_r. reflexivity.
Qed.

Lemma image_loop_plain (rb : Z) (imgs : list Image) (st : PageState) :
  (rb =? 1)%Z = false ->
  image_loop rb imgs st = extend st [] (flat_map plain_image_ops imgs).
Proof.
  intro Hrb. unfold image_loop. revert st.
  induction imgs as [|img imgs IH]; intro st; simpl.
  - symmetry. apply extend_nil.
  - rewrite IH, process_image_plain, extend_extend by exact Hrb. reflexivity.
Qed.

Lemma span_records_nothing_removed (pg : nat) (l : list Span) :
  flat_map (span_records pg []) l = [].
Proof.
  induction l as [|span l IH]; simpl; [reflexivity|].
  rewrite IH. unfold span_records. simpl. rewrite andb_false_r. reflexivity.
Qed.

(** The page built when nothing is classified. *)
Lemma passthrough_page (rb hl : Z) (pg : nat) (page : Page) (s0 : Stats)
  (sp0 : list RecoveredSpan) (st : PageState) :
  (rb =? 1)%Z = false ->
  process_page rb hl pg page s0 sp0 = Ok st ->
  exists imgs drawings blocks,
    get_images page = Ok imgs /\
    get_drawings page = Ok drawings /\
    get_text_blocks page = Ok blocks /\
    st = mkPageState s0 sp0 []
           (mkNewPage (width (page_rect page)) (height (page_rect page))
              (flat_map plain_image_ops imgs
               ++ [commit_shape (map redraw_path_plain drawings)]
               ++ flat_map (span_ops hl []) (all_spans blocks)))
           [].
Proof.
  intro Hrb. unfold process_page, annot_step, drawing_step. rewrite Hrb. simpl.
  destruct (get_images page) as [imgs|]; simpl; [|discriminate].
  destruct (get_drawings page) as [drawings|]; simpl; [|discriminate].
  destruct (get_text_blocks page) as [blocks|]; simpl; [|discriminate].
  intro H. inversion H; subst; clear H.
  exists imgs, drawings, blocks. repeat (split; [reflexivity|]).
  rewrite text_loop_extend, image_loop_plain by exact Hrb.
  unfold put, extend. simpl.
  rewrite span_records_nothing_removed, !app_nil_r, <- app_assoc.
  reflexivity.
Qed.

Lemma images_of_app (a b : list Op) :
  images_of (a ++ b) = images_of a ++ images_of b.
Proof. unfold images_of. apply flat_map_app. Qed.

Lemma shapes_of_app (a b : list Op) :
  shapes_of (a ++ b) = shapes_of a ++ shapes_of b.
Proof. unfold shapes_of. apply flat_map_app. Qed.

Lemma images_of_span_ops (hl : Z) (removed : list Rect) (l : list Span) :
  images_of (flat_map (span_ops hl removed) l) = [].
Proof.
  induction l as [|span l IH]; simpl; [reflexivity|].
  rewrite images_of_app, IH. unfold span_ops.
  destruct (printable span); reflexivity.
Qed.

Lemma shapes_of_span_ops (hl : Z) (removed : list Rect) (l : list Span) :
  shapes_of (flat_map (span_ops hl removed) l) = [].
Proof.
  induction l as [|span l IH]; simpl; [reflexivity|].
  rewrite shapes_of_app, IH. unfold span_ops.
  destruct (printable span); reflexivity.
Qed.

Lemma shapes_of_plain_images (imgs : list Image) :
  shapes_of (flat_map plain_image_ops imgs) = [].
Proof.
  induction imgs as [|img imgs IH]; simpl; [reflexivity|].
  rewrite shapes_of_app, IH. unfold plain_image_ops.
  destruct (get_image_rects img) as [[|r rest]|]; try reflexivity.
  destruct (Qltb 10 (height r)); [|reflexivity].
  destruct (get_pixmap img); reflexivity.
Qed.

Lemma straight_of_plain (l : list Item) :
  filter is_straight (flat_map redraw_item_plain l)
  = filter is_straight (flat_map redraw_item l).
Proof.
  induction l as [|item l IH]; simpl; [reflexivity|].
  rewrite !filter_app, IH. destruct item; reflexivity.
Qed.

Lemma redraw_plain_straight (drawings : list DrawingPath) :
  Forall2 redrawn_straight drawings (map redraw_path_plain drawings).
Proof.
  induction drawings as [|path drawings IH]; simpl; constructor; [|exact IH].
  unfold redrawn_straight, redraw_path_plain. simpl.
  split; [apply straight_of_plain|]. split; reflexivity.
Qed.

(** C8 as stated fails: in pass-through mode an image whose placement is
    not higher than 10 is not re-inserted. *)
Lemma passthrough_drops_strip_image :
  get_image_rects strip_image = Ok [strip_rect] /\
  get_pixmap strip_image = Ok grey_pix /\
  exists r,
    process_file (one_page_doc [strip_image] [] []) 0 1 = Some r /\
    flat_map (fun pg => images_of (contents pg)) (saved_doc r) = [].
Proof.
  split; [reflexivity|]. split; [reflexivity|].
  eexists. split; reflexivity.
Qed.

(** The [else] branch of the redraw draws lines and rectangles only and
    passes no width and no opacity; the branch that removes redactions
    draws the curve, 3 wide. *)
Example passthrough_curve :
  map redraw_path_plain [curve]
  = [([], mkFinish None (Some [1; 0; 0]) None None)] /\
  map redraw_path [curve]
  = [([draw_bezier (mkPoint 0 0) (mkPoint 10 20) (mkPoint 20 20) (mkPoint 30 0)],
      mkFinish None (Some [1; 0; 0]) (Some 3) (Some 1))].
Proof. split; reflexivity. Qed.

(** C8 (amended): when redaction removal is disabled, for every page: no
    annotation is deleted, no tally changes, no region is removed and no
    run is recorded; the images re-inserted are those whose first
    placement is higher than 10 and whose pixel data can be decoded, each
    at that placement; and every DrawingPath is redrawn, in order, with
    its line and rectangle segments in their order and with its fill and
    stroke colours. *)
Theorem passthrough_rerenders (remove_bbox highlight_text : Z)
  (current_pg : nat) (page : Page) (s0 : Stats) (sp0 : list RecoveredSpan)
  (st : PageState) (imgs : list Image) (drawings : list DrawingPath) :
  remove_bbox <> 1%Z ->
  process_page remove_bbox highlight_text current_pg page s0 sp0 = Ok st ->
  get_images page = Ok imgs ->
  get_drawings page = Ok drawings ->
  deleted_annots st = [] /\
  stats st = s0 /\
  removed_rects_on_page st = [] /\
  unredacted_spans st = sp0 /\
  images_of (contents (new_page st))
  = images_of (flat_map plain_image_ops imgs) /\
  exists shapes,
    shapes_of (contents (new_page st)) = [shapes] /\
    Forall2 redrawn_straight drawings shapes.
Proof.
  intros Hrb Hp Hi Hd. apply Z.eqb_neq in Hrb.
  destruct (passthrough_page _ _ _ _ _ _ Hrb Hp)
    as (imgs' & drawings' & blocks & Hi' & Hd' & _ & ->).
  rewrite Hi in Hi'. inversion Hi'; subst imgs'.
  rewrite Hd in Hd'. inversion Hd'; subst drawings'.
  cbn [new_page contents deleted_annots stats removed_rects_on_page
       unredacted_spans].
  repeat (split; [reflexivity|]). split.
  - rewrite !images_of_app, images_of_span_ops.
    cbn [images_of flat_map app]. rewrite app_nil_r. reflexivity.
  - exists (map redraw_path_plain drawings). split.
    + rewrite !shapes_of_app, shapes_of_span_ops, shapes_of_plain_images.
      reflexivity.
    + apply redraw_plain_straight.
Qed.

Lemma passthrough_rerenders_witness :
  (0 <> 1)%Z /\
  exists st,
    process_page 0 1 1 (one_page [black_image] [black_bar] (one_run secret))
                 stats0 [] = Ok st /\
    stats st = stats0 /\
    images_of (contents (new_page st)) = [(photo_rect, black_pix)].
Proof.
  assert (H01 : (0 <> 1)%Z) by discriminate.
  split; [exact H01|].
  eexists. split; [reflexivity|].
  pose proof (@passthrough_rerenders 0 1 1
                (one_page [black_image] [black_bar] (one_run secret))
                stats0 [] _ [black_image] [black_bar] H01
                eq_refl eq_refl eq_refl) as H.
  split.
  - exact (proj1 (proj2 H)).
  - exact (proj1 (proj2 (proj2 (proj2 (proj2 H))))).
Defined.

(** ** The colour of the text *)

Lemma was_covered_existsb (b : Rect) (rects : list Rect) :
  was_covered b rects = existsb (intersects b) rects.
Proof.
  induction rects as [|r rects IH]; simpl; [reflexivity|].
  rewrite IH. destruct (intersects b r); reflexivity.
Qed.

Lemma existsb_covered (removed : list Rect) (span : Span) :
  existsb (intersects (bbox span)) removed = true <-> covered removed span.
Proof. rewrite <- was_covered_existsb. apply was_covered_iff. Qed.

(** C9: the text of an output page is drawn in two colours only.  Run by
    run, the colour is pure red (1,0,0) when highlighting is enabled and
    the bounding box of the run intersects a removed region of the page,
    pure black (0,0,0) in every other case: each printable run is on the
    output page in the one or the other.  The colour the run has in the
    input plays no part in what the engine does with it; with
    highlighting disabled, and in pass-through mode, where no region is
    removed, all the text is (0,0,0). *)
Theorem text_is_red_or_black (remove_bbox highlight_text : Z)
  (current_pg : nat) (page : Page) (s0 : Stats) (sp0 : list RecoveredSpan)
  (st : PageState) (blocks : list Block) :
  process_page remove_bbox highlight_text current_pg page s0 sp0 = Ok st ->
  get_text_blocks page = Ok blocks ->
  map colour_of (texts_of (contents (new_page st)))
  = map (fun span =>
           if (highlight_text =? 1)%Z
              && existsb (intersects (bbox span)) (removed_rects_on_page st)
           then (1, 0, 0) else (0, 0, 0))
        (filter printable (all_spans blocks)) /\
  Forall (fun t => colour_of t = (1, 0, 0) \/ colour_of t = (0, 0, 0))
         (texts_of (contents (new_page st))) /\
  (forall span, In span (all_spans blocks) -> printable span = true ->
     (highlight_text = 1%Z /\ covered (removed_rects_on_page st) span ->
      In (origin span, text span, size span, (1, 0, 0))
         (texts_of (contents (new_page st)))) /\
     (~ (highlight_text = 1%Z /\ covered (removed_rects_on_page st) span) ->
      In (origin span, text span, size span, (0, 0, 0))
         (texts_of (contents (new_page st))))) /\
  (forall span c st',
     process_span highlight_text current_pg st' (recoloured span c)
     = process_span highlight_text current_pg st' span) /\
  (highlight_text <> 1%Z ->
   Forall (fun t => colour_of t = (0, 0, 0))
          (texts_of (contents (new_page st)))) /\
  (remove_bbox <> 1%Z ->
   Forall (fun t => colour_of t = (0, 0, 0))
          (texts_of (contents (new_page st)))).
Proof.
  intros Hp Hb.
  pose proof (page_texts _ _ _ _ _ _ Hp Hb) as Ht.
  assert (Hcol : forall span,
             colour_of (emitted highlight_text (removed_rects_on_page st) span)
             = if (highlight_text =? 1)%Z
                  && existsb (intersects (bbox span))
                             (removed_rects_on_page st)
               then (1, 0, 0) else (0, 0, 0)).
  { intro span. unfold emitted, colour_of, text_colour.
    rewrite was_covered_existsb. reflexivity. }
  split; [|split; [|split; [|split; [|split]]]].
  - rewrite Ht, map_map. apply map_ext. exact Hcol.
  - rewrite Ht. apply Forall_forall. intros t Hin.
    apply in_map_iff in Hin. destruct Hin as (span & <- & _).
    rewrite Hcol. destruct (_ && _); [left | right]; reflexivity.
  - intros span Hin Hpr.
    assert (Hem : In (emitted highlight_text (removed_rects_on_page st) span)
                     (texts_of (contents (new_page st)))).
    { rewrite Ht. apply in_map. apply filter_In. auto. }
    pose proof (Hcol span) as Hc.
    pose proof (existsb_covered (removed_rects_on_page st) span) as Hcov.
    unfold emitted in Hem, Hc. unfold colour_of in Hc.
    split.
    + intros [-> Hcv]. apply Hcov in Hcv. rewrite Hcv in Hc. simpl in Hc.
      rewrite <- Hc. exact Hem.
    + intro Hn.
      assert (E : (highlight_text =? 1)%Z
                  && existsb (intersects (bbox span))
                             (removed_rects_on_page st) = false).
      { apply not_true_is_false. intro E. apply andb_true_iff in E.
        destruct E as [E1 E2]. apply Hn.
        split; [apply Z.eqb_eq; exact E1 | apply Hcov; exact E2]. }
      rewrite E in Hc. rewrite <- Hc. exact Hem.
  - intros span c st'. reflexivity.
  - intro Hhl. apply Z.eqb_neq in Hhl. rewrite Ht.
    apply Forall_forall. intros t Hin.
    apply in_map_iff in Hin. destruct Hin as (span & <- & _).
    rewrite Hcol, Hhl. reflexivity.
  - intro Hrb. apply Z.eqb_neq in Hrb. rewrite Ht.
    destruct (passthrough_page _ _ _ _ _ _ Hrb Hp)
      as (imgs & drawings & blocks' & _ & _ & _ & Hst).
    rewrite Hst. cbn [removed_rects_on_page].
    apply Forall_forall. intros t Hin.
    apply in_map_iff in Hin. destruct Hin as (span & <- & _).
    unfold emitted, colour_of, text_colour. simpl.
    rewrite andb_false_r. reflexivity.
Qed.

Lemma text_is_red_or_black_witness :
  exists st,
    process_page 1 1 1 (one_page [] [black_bar] (one_run secret)) stats0 []
    = Ok st /\
    map colour_of (texts_of (contents (new_page st))) = [(1, 0, 0)].
Proof.
  eexists. split; [reflexivity|].
  exact (proj1 (@text_is_red_or_black 1 1 1
                  (one_page [] [black_bar] (one_run secret)) stats0 [] _
                  (one_run secret) eq_refl eq_refl)).
Defined.

(** ** Pages that cannot be read *)

Lemma process_page_unreadable (rb hl : Z) (pg : nat) (page : Page)
  (s0 : Stats) (sp0 : list RecoveredSpan) :
  unreadable rb page -> process_page rb hl pg page s0 sp0 = Raised.
Proof.
  unfold unreadable, process_page, annot_step, drawing_step,
    clean_vector_redactions.
  intros [[-> Ha] | [Hi | [Hd | Ht]]].
  - simpl. rewrite Ha. reflexivity.
  - rewrite Hi.
    destruct (if (rb =? 1)%Z then _ else _); reflexivity.
  - rewrite Hd.
    destruct (if (rb =? 1)%Z then _ else _); simpl; [|reflexivity].
    destruct (get_images page); simpl; [|reflexivity].
    destruct (rb =? 1)%Z; reflexivity.
  - rewrite Ht.
    destruct (if (rb =? 1)%Z then _ else _); simpl; [|reflexivity].
    destruct (get_images page); simpl; [|reflexivity].
    destruct (if (rb =? 1)%Z then _ else _); reflexivity.
Qed.

Lemma process_page_same_size (rb hl : Z) (pg : nat) (page : Page)
  (s0 : Stats) (sp0 : list RecoveredSpan) (st : PageState) :
  process_page rb hl pg page s0 sp0 = Ok st -> same_size page (new_page st).
Proof.
  intro Hp.
  destruct (process_page_text _ _ _ _ _ _ Hp)
    as (blocks & st4 & _ & -> & _ & _ & Hw & Hh).
  rewrite text_loop_extend. unfold same_size. simpl. auto.
Qed.

Lemma page_loop_unreadable (rb hl : Z) (pages : list Page) :
  (exists page, In page pages /\ unreadable rb page) ->
  forall i d, page_loop rb hl i pages d = Raised.
Proof.
  induction pages as [|page pages IH]; intros (bad & Hin & Hbad) i d.
  - destruct Hin.
  - simpl.
    destruct (process_page rb hl (i + 1) page (doc_stats d) (doc_spans d))
      as [st|] eqn:E; simpl; [|reflexivity].
    destruct Hin as [<- | Hin].
    + rewrite process_page_unreadable in E by exact Hbad. discriminate.
    + apply IH. exists bad. auto.
Qed.

Lemma page_loop_same_size (rb hl : Z) (pages : list Page) :
  forall i d d',
    page_loop rb hl i pages d = Ok d' ->
    exists nps, new_doc d' = new_doc d ++ nps /\ Forall2 same_size pages nps.
Proof.
  induction pages as [|page pages IH]; intros i d d'; simpl.
  - intro H. inversion H; subst. exists []. rewrite app_nil_r. auto.
  - destruct (process_page rb hl (i + 1) page (doc_stats d) (doc_spans d))
      as [st|] eqn:E; simpl; [|discriminate].
    intro H. apply IH in H. destruct H as (nps & Hd & Hf). simpl in Hd.
    exists (new_page st :: nps). split.
    + rewrite Hd, <- app_assoc. reflexivity.
    + constructor; [|exact Hf]. exact (process_page_same_size _ _ _ _ _ _ E).
Qed.

Lemma log_results (results : list (option FileResult))
  (log_data : list (string * Stats)) :
  fold_left log_result results log_data = log_data ++ rows_of results.
Proof.
  revert log_data.
  induction results as [|result results IH]; intro log_data; simpl.
  - rewrite app_nil_r. reflexivity.
  - rewrite IH. destruct result; simpl; [|reflexivity].
    rewrite <- app_assoc. reflexivity.
Qed.

Lemma rows_of_app (a b : list (option FileResult)) :
  rows_of (a ++ b) = rows_of a ++ rows_of b.
Proof. unfold rows_of. apply flat_map_app. Qed.

(** C2 as stated fails: when a page of a document cannot be read, no
    output document is saved, so there is no blank page at that index. *)
Lemma torn_page_loses_document :
  open_doc torn_doc = Ok [torn_page] /\
  get_text_blocks torn_page = Raised /\
  process_file torn_doc 1 1 = None.
Proof. repeat split. Qed.

(** C2 (amended): for every document whose container opens but in which
    some page cannot be read, processing of the whole document is
    abandoned: nothing is saved for it and [process_file] returns [None]
    rather than raising; in a batch the other documents are processed as
    they are without it, and the summary has the rows of those that
    succeeded only.  In every document that is saved, the output has a
    page for every input page, of the same width and height. *)
Theorem unreadable_page_aborts_document (file : Document)
  (remove_bbox highlight_text : Z) (pages : list Page) :
  open_doc file = Ok pages ->
  (exists page, In page pages /\ unreadable remove_bbox page) ->
  process_file file remove_bbox highlight_text = None /\
  (forall before after,
     run_operation (is_dir (before ++ file :: after)) remove_bbox highlight_text
     = (map (fun f => process_file f remove_bbox highlight_text) before
        ++ None
        :: map (fun f => process_file f remove_bbox highlight_text) after,
        snd (run_operation (is_dir (before ++ after))
                           remove_bbox highlight_text))) /\
  (forall file' r,
     process_file file' remove_bbox highlight_text = Some r ->
     exists pages',
       open_doc file' = Ok pages' /\ Forall2 same_size pages' (saved_doc r)).
Proof.
  intros Ho Hbad.
  assert (Hnone : process_file file remove_bbox highlight_text = None).
  { unfold process_file. rewrite Ho. simpl.
    rewrite page_loop_unreadable by exact Hbad. reflexivity. }
  split; [exact Hnone|]. split.
  - intros before after. unfold run_operation.
    rewrite !log_results, !map_app. simpl. rewrite Hnone.
    rewrite !rows_of_app. reflexivity.
  - intros file' r. unfold process_file.
    destruct (open_doc file') as [pages'|]; simpl; [|discriminate].
    destruct (page_loop remove_bbox highlight_text 0 pages' _) as [d|] eqn:E;
      [|discriminate].
    intro H. inversion H; subst; clear H. simpl.
    exists pages'. split; [reflexivity|].
    apply page_loop_same_size in E. destruct E as (nps & -> & Hf).
    exact Hf.
Qed.

Lemma unreadable_page_aborts_document_witness :
  (exists page, In page [torn_page] /\ unreadable 1 page) /\
  process_file torn_doc 1 1 = None.
Proof.
  assert (Hbad : exists page, In page [torn_page] /\ unreadable 1 page).
  { exists torn_page. split; [left; reflexivity|].
    right. right. right. reflexivity. }
  split; [exact Hbad|].
  exact (proj1 (@unreadable_page_aborts_document torn_doc 1 1 [torn_page]
                  eq_refl Hbad)).
Defined.

(** ** The scenarios of the design document *)

Example threshold_literals : 0.05 == 1 # 20 /\ 0.95 == 19 # 20.
Proof. split; reflexivity. Qed.

Example coverage_inside :
  was_covered (mkRect 10 10 50 20) [mkRect 0 0 100 100] = true.
Proof. reflexivity. Qed.

Example coverage_outside :
  was_covered (mkRect 200 200 210 210) [mkRect 0 0 100 100] = false.
Proof. reflexivity. Qed.

(** A black bar over the run SECRET: the bar is gone, one black vector
    is counted and the run is reported, on page 1. *)
Example scenario_secret :
  exists r,
    process_file (one_page_doc [] [black_bar] (one_run secret)) 1 1 = Some r /\
    flat_map (fun pg => shapes_of (contents pg)) (saved_doc r) = [[]] /\
    snd (row r) = mkStats 0 0 1 0 0 /\
    saved_spans r
    = [mkRecovered 1 (str_of_string "SECRET") [20; 15; 90; 25] [20; 15; 90; 25]].
Proof. eexists. repeat split. Qed.

(** A black bar and no text: nothing is reported, one black vector is
    counted. *)
Example scenario_bar_only :
  exists r,
    process_file (one_page_doc [] [black_bar] []) 1 1 = Some r /\
    snd (row r) = mkStats 0 0 1 0 0 /\
    saved_spans r = [].
Proof. eexists. repeat split. Qed.

(** A batch of three files, the second with a page that cannot be read:
    two documents are saved and two rows are logged. *)
Example scenario_batch :
  let good := one_page_doc [] [black_bar] (one_run secret) in
  exists r,
    process_file good 1 1 = Some r /\
    run_operation (is_dir [good; torn_doc; good]) 1 1
    = ([Some r; None; Some r], [row r; row r]).
Proof. eexists. split; reflexivity. Qed.

(** * Further properties of [unredact.py] *)

(** ** The image loop, verdict by verdict *)

Lemma not_dark_and_bright (avg : Q) :
  Qltb avg 15 = true -> Qltb 240 avg = true -> False.
Proof.
  intros H1 H2. apply Qltb_lt in H1, H2.
  assert (H : 240 < 15) by (eapply Qlt_trans; eauto).
  discriminate H.
Qed.

Lemma process_image_verdict (rb : Z) (st : PageState) (img : Image) :
  process_image rb st img = apply_verdict (image_verdict rb img) st.
Proof.
  unfold process_image, image_verdict.
  destruct (get_image_rects img) as [[|r rest]|]; try reflexivity.
  destruct (Qltb 10 (height r)); [|reflexivity].
  destruct (get_pixmap img) as [pix|]; [|reflexivity].
  destruct (rb =? 1)%Z; [|reflexivity].
  destruct (pixels <- check_pix_samples pix;; avg_brightness pixels)
    as [avg|]; [|reflexivity].
  destruct (Qltb avg 15) eqn:E1, (Qltb 240 avg) eqn:E2; try reflexivity.
  exfalso. exact (not_dark_and_bright avg E1 E2).
Qed.

Lemma after_images_nil (st : PageState) : after_images [] st = st.
Proof.
  destruct st as [[bi wi bv wv an] sp rm [w h c] d].
  unfold after_images. simpl. rewrite !app_nil_r, !Nat.add_0_r. reflexivity.
Qed.

Lemma after_images_cons (v : ImageVerdict) (vs : list ImageVerdict)
  (st : PageState) :
  after_images (v :: vs) st = after_images vs (apply_verdict v st).
Proof.
  destruct st as [[bi wi bv wv an] sp rm [w h c] d].
  destruct v; unfold after_images; simpl;
    rewrite <- ?app_assoc, ?Nat.add_succ_r; reflexivity.
Qed.

Lemma image_loop_closed (rb : Z) (imgs : list Image) (st : PageState) :
  image_loop rb imgs st = after_images (map (image_verdict rb) imgs) st.
Proof.
  unfold image_loop. revert st.
  induction imgs as [|img imgs IH]; intro st; simpl.
  - symmetry. apply after_images_nil.
  - rewrite IH, after_images_cons, process_image_verdict. reflexivity.
Qed.

(** ** One page, in closed form *)

(** [process_page] raises when one of the calls it makes on the page
    does, and returns [page_result] otherwise. *)
Lemma process_page_closed (rb hl : Z) (pg : nat) (page : Page) (s0 : Stats)
  (sp0 : list RecoveredSpan) :
  process_page rb hl pg page s0 sp0
  = (x <- page_inputs rb page ;;
     Ok (page_result rb hl pg (page_rect page) x s0 sp0)).
Proof.
  unfold process_page, page_inputs, annot_step, drawing_step,
    clean_vector_redactions.
  destruct (rb =? 1)%Z eqn:Erb.
  - destruct (page_annots page) as [anns|]; simpl; [|reflexivity].
    destruct (get_images page) as [imgs|]; simpl; [|reflexivity].
    destruct (get_drawings page) as [drawings|]; simpl; [|reflexivity].
    destruct (get_text_blocks page) as [blocks|]; simpl; [|reflexivity].
    f_equal. rewrite text_loop_extend, image_loop_closed.
    unfold page_result, page_removed, page_shapes, vector_part.
    rewrite Erb. destruct s0 as [bi wi bv wv an].
    unfold extend, put, add_removed, set_stats, add_vec, add_annots,
      after_images. simpl. rewrite <- !app_assoc. reflexivity.
  - simpl.
    destruct (get_images page) as [imgs|]; simpl; [|reflexivity].
    destruct (get_drawings page) as [drawings|]; simpl; [|reflexivity].
    destruct (get_text_blocks page) as [blocks|]; simpl; [|reflexivity].
    f_equal. rewrite text_loop_extend, image_loop_closed.
    unfold page_result, page_removed, page_shapes, vector_part.
    rewrite Erb. destruct s0 as [bi wi bv wv an].
    unfold extend, put, after_images. simpl.
    rewrite <- !app_assoc, !app_nil_r, !Nat.add_0_r. reflexivity.
Qed.

Lemma process_page_result (rb hl : Z) (pg : nat) (page : Page) (s0 : Stats)
  (sp0 : list RecoveredSpan) (st : PageState) :
  process_page rb hl pg page s0 sp0 = Ok st ->
  exists x,
    page_inputs rb page = Ok x /\
    st = page_result rb hl pg (page_rect page) x s0 sp0.
Proof.
  rewrite process_page_closed.
  destruct (page_inputs rb page) as [x|]; simpl; [|discriminate].
  intro H. inversion H. exists x. auto.
Qed.

Lemma page_inputs_ok (rb : Z) (page : Page) (anns : list Annot)
  (imgs : list Image) (drawings : list DrawingPath) (blocks : list Block) :
  page_inputs rb page = Ok (anns, imgs, drawings, blocks) ->
  (if (rb =? 1)%Z then page_annots page = Ok anns else anns = []) /\
  get_images page = Ok imgs /\
  get_drawings page = Ok drawings /\
  get_text_blocks page = Ok blocks.
Proof.
  unfold page_inputs.
  destruct (rb =? 1)%Z.
  - destruct (page_annots page); simpl; [|discriminate].
    destruct (get_images page); simpl; [|discriminate].
    destruct (get_drawings page); simpl; [|discriminate].
    destruct (get_text_blocks page); simpl; [|discriminate].
    intro H. inversion H; subst. auto.
  - simpl.
    destruct (get_images page); simpl; [|discriminate].
    destruct (get_drawings page); simpl; [|discriminate].
    destruct (get_text_blocks page); simpl; [|discriminate].
    intro H. inversion H; subst. auto.
Qed.

(** ** The vector loop as a whole *)

Lemma is_redaction_rules (path : DrawingPath) :
  is_redaction path = true <-> rule1 path \/ rule2 path \/ rule3 path.
Proof.
  unfold is_redaction, white_vector, black_vector.
  rewrite <- rule1b_iff, <- rule2b_iff, <- rule3b_iff.
  destruct (rule1b path), (rule2b path), (rule3b path); simpl;
    intuition discriminate.
Qed.

Lemma tallies_count_redactions (l : list DrawingPath) :
  (List.length (filter black_vector l) + List.length (filter white_vector l)
   = List.length (filter is_redaction l))%nat.
Proof.
  induction l as [|path l IH]; simpl; [reflexivity|].
  assert (Hr : is_redaction path = black_vector path || white_vector path)
    by reflexivity.
  assert (Hw : white_vector path = negb (black_vector path) && rule3b path)
    by reflexivity.
  rewrite Hr, Hw.
  destruct (black_vector path), (rule3b path); simpl; lia.
Qed.

Lemma filter_split_length {A} (f : A -> bool) (l : list A) :
  (List.length (filter (fun x => negb (f x)) l) + List.length (filter f l)
   = List.length l)%nat.
Proof.
  induction l as [|x l IH]; simpl; [reflexivity|].
  destruct (f x); simpl; lia.
Qed.

(** X1: [clean_vector_redactions] splits the paths of a page in two: the
    paths it returns are, in order, those no rule matches; it returns
    one rectangle per other path, in order; the two tallies add up to
    the number of rectangles; and no path is lost or counted twice. *)
Theorem clean_vector_redactions_partitions (page : Page)
  (drawings : list DrawingPath) :
  get_drawings page = Ok drawings ->
  exists v,
    clean_vector_redactions page = Ok v /\
    cleaned_drawings v = filter (fun path => negb (is_redaction path)) drawings /\
    removed_rects v = map rect (filter is_redaction drawings) /\
    (black_v_removed v + white_v_removed v = List.length (removed_rects v))%nat /\
    (List.length (cleaned_drawings v) + List.length (removed_rects v)
     = List.length drawings)%nat /\
    (forall path, is_redaction path = true
                  <-> rule1 path \/ rule2 path \/ rule3 path).
Proof.
  intro Hd. unfold clean_vector_redactions. rewrite Hd. simpl.
  eexists. split; [reflexivity|]. rewrite clean_loop_filter. simpl.
  split; [reflexivity|]. split; [reflexivity|]. split; [|split].
  - rewrite length_map. apply tallies_count_redactions.
  - rewrite length_map. apply filter_split_length.
  - apply is_redaction_rules.
Qed.

Lemma clean_vector_redactions_partitions_witness :
  exists v,
    clean_vector_redactions (one_page [] [black_bar; curve; white_bar] [])
    = Ok v /\
    cleaned_drawings v = [curve] /\
    removed_rects v = [rect black_bar; rect white_bar].
Proof.
  destruct (@clean_vector_redactions_partitions
              (one_page [] [black_bar; curve; white_bar] [])
              [black_bar; curve; white_bar] eq_refl)
    as (v & Hv & Hc & Hr & _).
  exists v. split; [exact Hv|]. split.
  - rewrite Hc. reflexivity.
  - rewrite Hr. reflexivity.
Defined.

(** ** Missing keys and small marks *)

Lemma absent_not_truthy (c : option Color) : absent c -> truthy c = false.
Proof. intros [-> | ->]; reflexivity. Qed.

(** X2: a path is kept, whatever else it holds, when it has neither a
    fill nor a stroke colour (key missing, [None] or an empty tuple);
    when it has no fill colour and no [width] key (the width then counts
    as 0); and when its rectangle is at most 5 wide or at most 5 high
    and its stroke is at most 10 wide (5 and 10 included). *)
Theorem small_or_colourless_paths_kept (st : VecState) (path : DrawingPath) :
  (absent (fill path) -> absent (color path) ->
   clean_step st path = kept st path) /\
  (absent (fill path) -> path_width path = None ->
   clean_step st path = kept st path) /\
  (width (rect path) <= 5 \/ height (rect path) <= 5 ->
   stroke_width path <= 10 ->
   clean_step st path = kept st path).
Proof.
  rewrite clean_step_cascade. unfold rule1b, rule2b, rule3b.
  split; [|split].
  - intros Hf Hc.
    rewrite (absent_not_truthy Hf), (absent_not_truthy Hc). reflexivity.
  - intros Hf Hw. rewrite (absent_not_truthy Hf).
    unfold stroke_width. rewrite Hw. simpl.
    rewrite !andb_false_r. reflexivity.
  - intros Hsmall Hw.
    assert (E : Qltb 5 (width (rect path)) && Qltb 5 (height (rect path))
                = false).
    { apply andb_false_iff.
      destruct Hsmall as [H | H]; [left | right]; apply Qltb_ge; exact H. }
    apply Qltb_ge in Hw. rewrite E, Hw, !andb_false_r. reflexivity.
Qed.

Lemma small_or_colourless_paths_kept_witness :
  (width (rect swatch) <= 5 \/ height (rect swatch) <= 5) /\
  stroke_width swatch <= 10 /\
  clean_step vec0 swatch = kept vec0 swatch.
Proof.
  assert (Hs : width (rect swatch) <= 5 \/ height (rect swatch) <= 5)
    by (left; discriminate).
  assert (Hw : stroke_width swatch <= 10) by discriminate.
  split; [exact Hs|]. split; [exact Hw|].
  exact (proj2 (proj2 (small_or_colourless_paths_kept vec0 swatch)) Hs Hw).
Defined.

(** ** What a verdict says about the image *)

Lemma avg_brightness_mean (pixels : list byte) (avg : Q) :
  avg_brightness pixels = Ok avg ->
  pixels <> [] /\ avg = mean_brightness pixels.
Proof.
  destruct pixels as [|b pixels]; simpl; [discriminate|].
  intro H. inversion H. split; [discriminate | reflexivity].
Qed.

Lemma image_verdict_inv (rb : Z) (img : Image) :
  match image_verdict rb img with
  | skipped_image => True
  | removed_black r =>
      rb = 1%Z /\ exists pix, classified img r pix (fun m => m < 15)
  | removed_white r =>
      rb = 1%Z /\ exists pix, classified img r pix (fun m => 240 < m)
  | copied_image r pix =>
      (exists rest, get_image_rects img = Ok (r :: rest)) /\
      10 < height r /\
      get_pixmap img = Ok pix /\
      (rb = 1%Z -> classified img r pix (fun m => 15 <= m /\ m <= 240))
  end.
Proof.
  unfold image_verdict, classified.
  destruct (get_image_rects img) as [[|r rest]|]; try exact I.
  destruct (Qltb 10 (height r)) eqn:Eh; [|exact I].
  apply Qltb_lt in Eh.
  destruct (get_pixmap img) as [pix|]; [|exact I].
  destruct (rb =? 1)%Z eqn:Erb.
  - apply Z.eqb_eq in Erb.
    destruct (check_pix_samples pix) as [pixels|] eqn:Es; simpl; [|exact I].
    destruct (avg_brightness pixels) as [avg|] eqn:Ea; [|exact I].
    apply avg_brightness_mean in Ea. destruct Ea as [Hne ->].
    destruct (Qltb (mean_brightness pixels) 15) eqn:E1.
    { apply Qltb_lt in E1. split; [exact Erb|].
      exists pix, rest, pixels. auto 10. }
    destruct (Qltb 240 (mean_brightness pixels)) eqn:E2.
    { apply Qltb_lt in E2. split; [exact Erb|].
      exists pix, rest, pixels. auto 10. }
    apply Qltb_ge in E1, E2.
    split; [eauto|]. split; [exact Eh|]. split; [reflexivity|].
    intros _. exists rest, pixels. auto 10.
  - apply Z.eqb_neq in Erb.
    split; [eauto|]. split; [exact Eh|]. split; [reflexivity|].
    intro H. contradiction.
Qed.

Lemma verdict_rects_count (vs : list ImageVerdict) :
  List.length (flat_map verdict_rects vs)
  = (List.length (filter is_black_image vs)
     + List.length (filter is_white_image vs))%nat.
Proof.
  induction vs as [|v vs IH]; simpl; [reflexivity|].
  rewrite length_app, IH. destruct v; simpl; lia.
Qed.

Lemma shapes_of_verdict_ops (vs : list ImageVerdict) :
  shapes_of (flat_map verdict_ops vs) = [].
Proof.
  induction vs as [|v vs IH]; simpl; [reflexivity|].
  rewrite shapes_of_app, IH. destruct v; reflexivity.
Qed.

Lemma verdict_ops_images (vs : list ImageVerdict) :
  flat_map verdict_ops vs
  = map image_op (images_of (flat_map verdict_ops vs)).
Proof.
  induction vs as [|v vs IH]; simpl; [reflexivity|].
  rewrite images_of_app, map_app, <- IH. destruct v; reflexivity.
Qed.

Lemma span_ops_texts (hl : Z) (removed : list Rect) (l : list Span) :
  flat_map (span_ops hl removed) l
  = map text_op (texts_of (flat_map (span_ops hl removed) l)).
Proof.
  induction l as [|span l IH]; simpl; [reflexivity|].
  rewrite texts_of_app, map_app, <- IH. unfold span_ops.
  destruct (printable span); reflexivity.
Qed.

Lemma vector_part_count (rb : Z) (drawings : list DrawingPath) :
  (black_v_removed (vector_part rb drawings)
   + white_v_removed (vector_part rb drawings)
   = List.length (removed_rects (vector_part rb drawings)))%nat.
Proof.
  unfold vector_part. destruct (rb =? 1)%Z; [|reflexivity].
  rewrite clean_loop_filter. simpl.
  rewrite length_map. apply tallies_count_redactions.
Qed.

Lemma vector_part_origin (rb : Z) (drawings : list DrawingPath) (r : Rect) :
  In r (removed_rects (vector_part rb drawings)) ->
  rb = 1%Z /\
  exists path, In path drawings /\ rect path = r /\
               (rule1 path \/ rule2 path \/ rule3 path).
Proof.
  unfold vector_part. destruct (rb =? 1)%Z eqn:Erb; [|intros []].
  rewrite clean_loop_filter. simpl. intro Hin.
  apply in_map_iff in Hin. destruct Hin as (path & Hr & Hin).
  apply filter_In in Hin. destruct Hin as [Hin Hred].
  split; [apply Z.eqb_eq; exact Erb|].
  exists path. split; [exact Hin|]. split; [exact Hr|].
  apply is_redaction_rules. exact Hred.
Qed.

(** Splits a processed page into the answers of the library and the
    closed form of the result. *)
Ltac page_closed Hp :=
  let x := fresh "x" in
  let Hx := fresh "Hx" in
  destruct (process_page_result _ _ _ _ _ _ Hp) as (x & Hx & ->);
  let a := fresh "anns" in
  let i := fresh "imgs" in
  let d := fresh "drawings" in
  let b := fresh "blocks" in
  destruct x as [[[a i] d] b];
  let Ha := fresh "Hanns" in
  let Hi := fresh "Himgs" in
  let Hd := fresh "Hdraw" in
  let Hb := fresh "Hblocks" in
  destruct (page_inputs_ok _ _ Hx) as (Ha & Hi & Hd & Hb).

(** ** The vector paths of the output page *)

Lemma redraw_reads_back (l : list Item) :
  map item_of_cmd (flat_map redraw_item l) = l.
Proof.
  induction l as [|item l IH]; simpl; [reflexivity|].
  rewrite map_app, IH. destruct item; reflexivity.
Qed.

(** X3: when redactions are removed, the output page gets one shape,
    made of exactly the paths of the input page that no rule matches, in
    order.  Each of them is redrawn segment by segment: lines,
    rectangles, quads and curves, so that the segment list can be read
    back from the drawing calls; with its fill and stroke colours; with
    its width, or 1 when the key is missing; and with its fill opacity,
    or 1 when the key is missing. *)
Theorem kept_paths_redrawn_in_full (highlight_text : Z) (current_pg : nat)
  (page : Page) (s0 : Stats) (sp0 : list RecoveredSpan) (st : PageState)
  (drawings : list DrawingPath) :
  process_page 1 highlight_text current_pg page s0 sp0 = Ok st ->
  get_drawings page = Ok drawings ->
  shapes_of (contents (new_page st))
  = [map redraw_path
         (filter (fun path => negb (is_redaction path)) drawings)] /\
  (forall path,
     map item_of_cmd (fst (redraw_path path)) = items path /\
     snd (redraw_path path)
     = mkFinish (fill path) (color path)
                (Some (or_default 1 (path_width path)))
                (Some (or_default 1 (fill_opacity path)))).
Proof.
  intros Hp Hd. page_closed Hp.
  rewrite Hd in Hdraw. inversion Hdraw; subst drawings0. split.
  - cbn [page_result new_page contents].
    rewrite !shapes_of_app, shapes_of_verdict_ops, shapes_of_span_ops.
    unfold page_shapes. simpl. rewrite clean_loop_filter. reflexivity.
  - intro path. split; [apply redraw_reads_back | reflexivity].
Qed.

Lemma kept_paths_redrawn_in_full_witness :
  exists st,
    process_page 1 1 1 busy_page stats0 [] = Ok st /\
    shapes_of (contents (new_page st)) = [[redraw_path curve]].
Proof.
  eexists. split; [reflexivity|].
  exact (proj1 (@kept_paths_redrawn_in_full 1 1 busy_page stats0 [] _
                  [black_bar; curve] eq_refl eq_refl)).
Defined.

(** ** Removed regions and tallies *)

Lemma flat_map_verdict_origin (rb : Z) (imgs : list Image) (r : Rect) :
  In r (flat_map verdict_rects (map (image_verdict rb) imgs)) ->
  rb = 1%Z /\
  exists img pix,
    In img imgs /\
    classified img r pix (fun m => m < 15 \/ 240 < m).
Proof.
  intro Hin. apply in_flat_map in Hin. destruct Hin as (v & Hv & Hr).
  apply in_map_iff in Hv. destruct Hv as (img & <- & Himg).
  pose proof (image_verdict_inv rb img) as Hinv.
  destruct (image_verdict rb img) as [|r'|r'|r' pix']; simpl in Hr;
    try contradiction;
    destruct Hr as [<- | []];
    destruct Hinv as (Hrb & pix & rest & pixels & H1 & H2 & H3 & H4 & H5 & H6);
    (split; [exact Hrb|]); exists img, pix; (split; [exact Himg|]);
    exists rest, pixels; auto 10.
Qed.

(** X4: on every page that is processed, the four tallies of removed
    marks grow together by exactly the number of removed regions of the
    page: one region per removed image or path, one count per region.
    Every removed region is the first placement of an image of the page
    whose mean brightness is below 15 or above 240, or the rectangle of
    a path of the page that one of the three rules matches, and regions
    are removed only when redaction removal is enabled. *)
Theorem removed_regions_are_counted (remove_bbox highlight_text : Z)
  (current_pg : nat) (page : Page) (s0 : Stats) (sp0 : list RecoveredSpan)
  (st : PageState) (imgs : list Image) (drawings : list DrawingPath) :
  process_page remove_bbox highlight_text current_pg page s0 sp0 = Ok st ->
  get_images page = Ok imgs ->
  get_drawings page = Ok drawings ->
  tally (stats st)
  = (tally s0 + List.length (removed_rects_on_page st))%nat /\
  (forall r, In r (removed_rects_on_page st) ->
     remove_bbox = 1%Z /\
     ((exists img pix,
         In img imgs /\ classified img r pix (fun m => m < 15 \/ 240 < m)) \/
      (exists path,
         In path drawings /\ rect path = r /\
         (rule1 path \/ rule2 path \/ rule3 path)))).
Proof.
  intros Hp Hi Hd. page_closed Hp.
  rewrite Hi in Himgs. inversion Himgs; subst imgs0.
  rewrite Hd in Hdraw. inversion Hdraw; subst drawings0.
  cbn [page_result stats removed_rects_on_page]. unfold page_removed. split.
  - unfold tally. cbn [black_img white_img black_vec white_vec].
    rewrite length_app, verdict_rects_count.
    pose proof (vector_part_count remove_bbox drawings). lia.
  - intros r Hin. apply in_app_or in Hin. destruct Hin as [Hin | Hin].
    + destruct (flat_map_verdict_origin _ _ _ Hin) as (Hrb & H).
      split; [exact Hrb|]. left. exact H.
    + destruct (vector_part_origin _ _ _ Hin) as (Hrb & H).
      split; [exact Hrb|]. right. exact H.
Qed.

Lemma removed_regions_are_counted_witness :
  exists st,
    process_page 1 1 1 busy_page stats0 [] = Ok st /\
    tally (stats st) = 2%nat /\
    removed_rects_on_page st = [photo_rect; rect black_bar].
Proof.
  eexists. split; [reflexivity|]. split.
  - exact (proj1 (@removed_regions_are_counted 1 1 1 busy_page stats0 [] _
                    [black_image; grey_image] [black_bar; curve]
                    eq_refl eq_refl eq_refl)).
  - reflexivity.
Defined.

(** ** The images of the output page *)

(** X5: every image on an output page is an image of the input page, at
    its first placement, which is higher than 10, with its own pixel
    data; when redactions are removed its mean brightness lies between
    15 and 240, so that no image classified as a redaction is copied.
    The output page never has more images than the input page lists. *)
Theorem copied_images_are_not_redactions (remove_bbox highlight_text : Z)
  (current_pg : nat) (page : Page) (s0 : Stats) (sp0 : list RecoveredSpan)
  (st : PageState) (imgs : list Image) :
  process_page remove_bbox highlight_text current_pg page s0 sp0 = Ok st ->
  get_images page = Ok imgs ->
  (forall r pix, In (r, pix) (images_of (contents (new_page st))) ->
     exists img,
       In img imgs /\
       (exists rest, get_image_rects img = Ok (r :: rest)) /\
       10 < height r /\
       get_pixmap img = Ok pix /\
       (remove_bbox = 1%Z ->
        classified img r pix (fun m => 15 <= m /\ m <= 240))) /\
  (List.length (images_of (contents (new_page st))) <= List.length imgs)%nat.
Proof.
  intros Hp Hi. page_closed Hp.
  rewrite Hi in Himgs. inversion Himgs; subst imgs0.
  cbn [page_result new_page contents].
  rewrite !images_of_app, images_of_span_ops. cbn [images_of flat_map app].
  rewrite app_nil_r. clear. split.
  - intros r pix Hin. induction imgs as [|img imgs IH]; simpl in Hin.
    + contradiction.
    + rewrite images_of_app in Hin. apply in_app_or in Hin.
      destruct Hin as [Hin | Hin].
      * pose proof (image_verdict_inv remove_bbox img) as Hinv.
        destruct (image_verdict remove_bbox img) as [|r'|r'|r' pix'];
          simpl in Hin; try contradiction.
        destruct Hin as [E | []]. inversion E; subst r' pix'.
        exists img. split; [left; reflexivity | exact Hinv].
      * destruct (IH Hin) as (img' & Hin' & H).
        exists img'. split; [right; exact Hin' | exact H].
  - induction imgs as [|img imgs IH]; simpl; [lia|].
    rewrite images_of_app, length_app.
    destruct (image_verdict remove_bbox img); simpl; lia.
Qed.

Lemma copied_images_are_not_redactions_witness :
  exists st,
    process_page 1 1 1 busy_page stats0 [] = Ok st /\
    (List.length (images_of (contents (new_page st))) <= 2)%nat.
Proof.
  eexists. split; [reflexivity|].
  exact (proj2 (@copied_images_are_not_redactions 1 1 1 busy_page stats0 [] _
                  [black_image; grey_image] eq_refl eq_refl)).
Defined.

(** ** Annotations *)

(** X6: when redactions are removed, every annotation of the page is
    handed to [delete_annot], in order and whatever its kind, and the
    annotation count grows by exactly their number. *)
Theorem annotations_deleted_and_counted (highlight_text : Z)
  (current_pg : nat) (page : Page) (s0 : Stats) (sp0 : list RecoveredSpan)
  (st : PageState) (anns : list Annot) :
  process_page 1 highlight_text current_pg page s0 sp0 = Ok st ->
  page_annots page = Ok anns ->
  deleted_annots st = anns /\
  annots (stats st) = (annots s0 + List.length anns)%nat.
Proof.
  intros Hp Ha. page_closed Hp. simpl in Hanns.
  rewrite Ha in Hanns. inversion Hanns; subst anns0.
  split; reflexivity.
Qed.

Lemma annotations_deleted_and_counted_witness :
  exists st,
    process_page 1 1 1 busy_page stats0 [] = Ok st /\
    deleted_annots st = [note] /\
    annots (stats st) = 1%nat.
Proof.
  eexists. split; [reflexivity|].
  exact (@annotations_deleted_and_counted 1 1 busy_page stats0 [] _ [note]
           eq_refl eq_refl).
Defined.

(** ** The layers of the output page *)

(** X7: an output page is built in three layers, whatever the order of
    the input page: first the images, then exactly one shape (also when
    the page has no path), then the text, so that text always lies on
    top of the images and paths that are kept. *)
Theorem page_is_images_shape_text (remove_bbox highlight_text : Z)
  (current_pg : nat) (page : Page) (s0 : Stats) (sp0 : list RecoveredSpan)
  (st : PageState) :
  process_page remove_bbox highlight_text current_pg page s0 sp0 = Ok st ->
  exists shapes,
    contents (new_page st)
    = map image_op (images_of (contents (new_page st)))
      ++ [commit_shape shapes]
      ++ map text_op (texts_of (contents (new_page st))) /\
    shapes_of (contents (new_page st)) = [shapes].
Proof.
  intro Hp. page_closed Hp.
  exists (page_shapes remove_bbox drawings).
  cbn [page_result new_page contents].
  set (vs := map (image_verdict remove_bbox) imgs).
  set (removed := page_removed remove_bbox imgs drawings).
  assert (Hti : texts_of (flat_map verdict_ops vs) = []).
  { clear. induction vs as [|v vs IH]; simpl; [reflexivity|].
    rewrite texts_of_app, IH. destruct v; reflexivity. }
  split.
  - rewrite !images_of_app, !texts_of_app, images_of_span_ops, Hti.
    cbn [images_of texts_of flat_map app]. rewrite app_nil_r.
    rewrite <- verdict_ops_images, <- span_ops_texts. reflexivity.
  - rewrite !shapes_of_app, shapes_of_verdict_ops, shapes_of_span_ops.
    reflexivity.
Qed.

Lemma page_is_images_shape_text_witness :
  exists st,
    process_page 1 1 1 busy_page stats0 [] = Ok st /\
    exists shapes, shapes_of (contents (new_page st)) = [shapes].
Proof.
  eexists. split; [reflexivity|].
  destruct (@page_is_images_shape_text 1 1 1 busy_page stats0 [] _ eq_refl)
    as (shapes & _ & H).
  exists shapes. exact H.
Defined.

(** ** Pages do not see each other *)

Lemma page_result_shift (rb hl : Z) (pg : nat) (prect : Rect)
  (x : list Annot * list Image * list DrawingPath * list Block)
  (s0 : Stats) (sp0 : list RecoveredSpan) :
  page_result rb hl pg prect x s0 sp0
  = shift s0 sp0 (page_result rb hl pg prect x (mkStats 0 0 0 0 0) []).
Proof.
  destruct x as [[[anns imgs] drawings] blocks]. reflexivity.
Qed.

(** X8: a page is processed without regard to the pages before it: the
    statistics and records gathered so far are only added to, and the
    output page, the removed regions and the deleted annotations are
    those of the page processed on its own, under any page number. *)
Theorem page_is_processed_on_its_own (remove_bbox highlight_text : Z)
  (current_pg : nat) (page : Page) (s0 : Stats) (sp0 : list RecoveredSpan) :
  process_page remove_bbox highlight_text current_pg page s0 sp0
  = (st <- process_page remove_bbox highlight_text current_pg page
             (mkStats 0 0 0 0 0) [] ;;
     Ok (shift s0 sp0 st)) /\
  (forall pg' s0' sp0' st st',
     process_page remove_bbox highlight_text current_pg page s0 sp0 = Ok st ->
     process_page remove_bbox highlight_text pg' page s0' sp0' = Ok st' ->
     new_page st = new_page st' /\
     removed_rects_on_page st = removed_rects_on_page st' /\
     deleted_annots st = deleted_annots st').
Proof.
  split.
  - rewrite !process_page_closed.
    destruct (page_inputs remove_bbox page) as [x|]; simpl; [|reflexivity].
    f_equal. apply page_result_shift.
  - intros pg' s0' sp0' st st'. rewrite !process_page_closed.
    destruct (page_inputs remove_bbox page) as [x|]; simpl; [|discriminate].
    intros H H'. inversion H; inversion H'; subst.
    destruct x as [[[anns imgs] drawings] blocks].
    cbn [page_result new_page removed_rects_on_page deleted_annots].
    split; [|split]; reflexivity.
Qed.

Lemma page_is_processed_on_its_own_witness :
  exists st st',
    process_page 1 1 1 busy_page stats0 [] = Ok st /\
    process_page 1 1 2 busy_page (mkStats 1 0 1 0 1) [recovered 1 secret]
    = Ok st' /\
    new_page st = new_page st'.
Proof.
  eexists. eexists. split; [reflexivity|]. split; [reflexivity|].
  exact (proj1 (proj2 (page_is_processed_on_its_own 1 1 1 busy_page stats0 [])
                  2%nat (mkStats 1 0 1 0 1) [recovered 1 secret] _ _
                  eq_refl eq_refl)).
Defined.

(** ** A document is the sum of its pages *)

Lemma add_stats_zero_r (s : Stats) : add_stats s (mkStats 0 0 0 0 0) = s.
Proof.
  destruct s. unfold add_stats. simpl. rewrite !Nat.add_0_r. reflexivity.
Qed.

Lemma add_stats_zero_l (s : Stats) : add_stats (mkStats 0 0 0 0 0) s = s.
Proof. destruct s. reflexivity. Qed.

Lemma add_stats_assoc (a b c : Stats) :
  add_stats (add_stats a b) c = add_stats a (add_stats b c).
Proof.
  unfold add_stats. simpl. rewrite !Nat.add_assoc. reflexivity.
Qed.

Lemma process_page_shift (rb hl : Z) (pg : nat) (page : Page) (s0 : Stats)
  (sp0 : list RecoveredSpan) :
  process_page rb hl pg page s0 sp0
  = (st <- process_page rb hl pg page (mkStats 0 0 0 0 0) [] ;;
     Ok (shift s0 sp0 st)).
Proof.
  rewrite !process_page_closed.
  destruct (page_inputs rb page) as [x|]; simpl; [|reflexivity].
  f_equal. apply page_result_shift.
Qed.

Lemma page_loop_alone (rb hl : Z) (pages : list Page) :
  forall i d,
    page_loop rb hl i pages d
    = (sts <- pages_alone rb hl i pages ;;
       Ok (mkDocState (add_stats (doc_stats d) (sum_stats (map stats sts)))
                      (doc_spans d ++ flat_map unredacted_spans sts)
                      (new_doc d ++ map new_page sts))).
Proof.
  induction pages as [|page pages IH]; intros i d; simpl.
  - rewrite add_stats_zero_r, !app_nil_r. destruct d. reflexivity.
  - rewrite process_page_shift.
    destruct (process_page rb hl (i + 1) page (mkStats 0 0 0 0 0) [])
      as [st|]; simpl; [|reflexivity].
    rewrite IH. simpl.
    destruct (pages_alone rb hl (S i) pages) as [sts|]; simpl; [|reflexivity].
    rewrite add_stats_assoc, <- !app_assoc. reflexivity.
Qed.

(** X9: the result of [process_file] is put together from its pages
    processed one by one, each on its own and numbered from 1: the saved
    document has their output pages in order, the report is their
    records one page after the other, and each number of the returned
    row is the sum of that number over the pages.  When the file cannot
    be opened or a page cannot be read there is no result. *)
Theorem document_is_the_sum_of_its_pages (file : Document)
  (remove_bbox highlight_text : Z) :
  process_file file remove_bbox highlight_text
  = match (pages <- open_doc file ;;
           pages_alone remove_bbox highlight_text 0 pages) with
    | Ok sts =>
        Some (mkFileResult (map new_page sts) (base_fname file)
                           (flat_map unredacted_spans sts)
                           (base_fname file, sum_stats (map stats sts)))
    | Raised => None
    end.
Proof.
  unfold process_file.
  destruct (open_doc file) as [pages|]; simpl; [|reflexivity].
  rewrite page_loop_alone. simpl.
  destruct (pages_alone remove_bbox highlight_text 0 pages) as [sts|]; simpl;
    [|reflexivity].
  rewrite add_stats_zero_l. reflexivity.
Qed.

(** ** The records of the report *)

Lemma lstrip_suffix (s : str) : exists w, s = w ++ lstrip s.
Proof.
  induction s as [|c s IH]; simpl.
  - exists []. reflexivity.
  - destruct (isspace c).
    + destruct IH as (w & Hw). exists (c :: w). simpl. congruence.
    + exists []. reflexivity.
Qed.

Lemma lstrip_head_ok (s : str) : head_ok (lstrip s).
Proof.
  induction s as [|c s IH]; simpl; [exact I|].
  destruct (isspace c) eqn:E; [exact IH | exact E].
Qed.

Lemma head_ok_lstrip (s : str) : head_ok s -> lstrip s = s.
Proof.
  destruct s as [|c s]; simpl; [reflexivity|]. intros ->. reflexivity.
Qed.

Lemma head_ok_prefix (u w : str) : head_ok (u ++ w) -> head_ok u.
Proof. destruct u; simpl; auto. Qed.

(** [strip] leaves nothing to strip. *)
Lemma strip_strip (s : str) : strip (strip s) = strip s.
Proof.
  unfold strip.
  set (t := lstrip s).
  assert (Ht : head_ok t) by apply lstrip_head_ok.
  destruct (lstrip_suffix (rev t)) as (w & Hw).
  assert (Hu : head_ok (rev (lstrip (rev t)))).
  { apply head_ok_prefix with (w := rev w).
    rewrite <- rev_app_distr, <- Hw, rev_involutive. exact Ht. }
  rewrite (head_ok_lstrip _ Hu), rev_involutive.
  rewrite (head_ok_lstrip _ (lstrip_head_ok (rev t))). reflexivity.
Qed.

Lemma span_records_well_formed (pg : nat) (removed : list Rect)
  (l : list Span) :
  Forall (fun x => rec_page x = pg /\ well_formed_record x)
         (flat_map (span_records pg removed) l).
Proof.
  induction l as [|span l IH]; simpl; [constructor|].
  apply Forall_app. split; [|exact IH].
  unfold span_records, printable.
  destruct (nonempty (strip (text span))) eqn:E; simpl; [|constructor].
  destruct (was_covered (bbox span) removed); constructor; [|constructor].
  unfold well_formed_record, recovered. simpl.
  split; [reflexivity|]. split; [exact E|]. split; [apply strip_strip|].
  reflexivity.
Qed.

Lemma sorted_app (l1 l2 : list RecoveredSpan) :
  StronglySorted page_order l1 ->
  StronglySorted page_order l2 ->
  (forall a b, In a l1 -> In b l2 -> page_order a b) ->
  StronglySorted page_order (l1 ++ l2).
Proof.
  intros H1 H2 H12. induction H1 as [|a l1 Hs IH Ha]; simpl; [exact H2|].
  constructor.
  - apply IH. intros x y Hx Hy. apply H12; [right; exact Hx | exact Hy].
  - apply Forall_app. split; [exact Ha|].
    apply Forall_forall. intros b Hb. apply H12; [left; reflexivity | exact Hb].
Qed.

Lemma same_page_sorted (pg : nat) (l : list RecoveredSpan) :
  Forall (fun x => rec_page x = pg) l -> StronglySorted page_order l.
Proof.
  induction 1 as [|a l Ha Hl IH]; constructor; [exact IH|].
  apply Forall_forall. intros b Hb. rewrite Forall_forall in Hl.
  unfold page_order. rewrite Ha, (Hl b Hb). constructor.
Qed.

Lemma pages_alone_records (rb hl : Z) (pages : list Page) :
  forall i sts,
    pages_alone rb hl i pages = Ok sts ->
    Forall (fun x => (i < rec_page x <= i + List.length pages)%nat /\
                     well_formed_record x)
           (flat_map unredacted_spans sts) /\
    StronglySorted page_order (flat_map unredacted_spans sts).
Proof.
  induction pages as [|page pages IH]; intros i sts; simpl.
  - intro H. inversion H; subst. simpl. split; constructor.
  - rewrite process_page_closed.
    destruct (page_inputs rb page) as [x|]; simpl; [|discriminate].
    destruct (pages_alone rb hl (S i) pages) as [sts'|] eqn:E; simpl;
      [|discriminate].
    intro H. inversion H; subst sts; clear H.
    destruct (IH (S i) sts' E) as [Hall Hsorted].
    destruct x as [[[anns imgs] drawings] blocks].
    cbn [flat_map page_result unredacted_spans app].
    pose proof (span_records_well_formed (i + 1)
                  (page_removed rb imgs drawings) (all_spans blocks)) as Hp.
    split.
    + apply Forall_app. split.
      * eapply Forall_impl; [|exact Hp]. intros x [Hx Hw].
        split; [lia | exact Hw].
      * eapply Forall_impl; [|exact Hall]. intros x [Hx Hw].
        split; [lia | exact Hw].
    + apply sorted_app; [|exact Hsorted|].
      * apply same_page_sorted with (pg := (i + 1)%nat).
        eapply Forall_impl; [|exact Hp]. intros x [Hx _]. exact Hx.
      * intros a b Ha Hb. rewrite Forall_forall in Hp, Hall.
        destruct (Hp a Ha) as [Hpa _]. destruct (Hall b Hb) as [Hpb _].
        unfold page_order. lia.
Qed.

(** X10: in the report of a file that is processed, every record has a
    page number between 1 and the number of pages of the input, the
    records come in the order of the pages, the recorded text is never
    empty and has no white space at either end, and the two boxes of a
    record ([bbox] and [rect]) are the same four numbers. *)
Theorem report_is_ordered_by_page (file : Document)
  (remove_bbox highlight_text : Z) (pages : list Page) (r : FileResult) :
  process_file file remove_bbox highlight_text = Some r ->
  open_doc file = Ok pages ->
  Forall (fun x => (1 <= rec_page x <= List.length pages)%nat /\
                   well_formed_record x) (saved_spans r) /\
  StronglySorted page_order (saved_spans r).
Proof.
  unfold process_file. intros Hp Ho. rewrite Ho in Hp. simpl in Hp.
  rewrite page_loop_alone in Hp.
  destruct (pages_alone remove_bbox highlight_text 0 pages) as [sts|] eqn:E;
    simpl in Hp; [|discriminate].
  inversion Hp; subst r; clear Hp. simpl.
  destruct (pages_alone_records _ _ _ _ E) as [Hall Hsorted].
  split; [|exact Hsorted].
  eapply Forall_impl; [|exact Hall]. intros x [Hx Hw].
  split; [lia | exact Hw].
Qed.

Lemma report_is_ordered_by_page_witness :
  exists r,
    process_file busy_doc 1 1 = Some r /\
    map rec_page (saved_spans r) = [1; 2]%nat /\
    StronglySorted page_order (saved_spans r).
Proof.
  eexists. split; [reflexivity|]. split; [reflexivity|].
  exact (proj2 (@report_is_ordered_by_page busy_doc 1 1
                  [busy_page; busy_page] _ eq_refl eq_refl)).
Defined.

(** ** Nothing removed, nothing reported *)

Lemma tally_add_stats (a b : Stats) :
  tally (add_stats a b) = (tally a + tally b)%nat.
Proof. unfold tally, add_stats. simpl. lia. Qed.

Lemma page_removed_length (rb hl : Z) (pg : nat) (prect : Rect)
  (anns : list Annot) (imgs : list Image) (drawings : list DrawingPath)
  (blocks : list Block) :
  tally (stats (page_result rb hl pg prect (anns, imgs, drawings, blocks)
                            (mkStats 0 0 0 0 0) []))
  = List.length (page_removed rb imgs drawings).
Proof.
  unfold tally, page_removed. cbn [page_result stats black_img white_img
                                   black_vec white_vec].
  rewrite length_app, verdict_rects_count.
  pose proof (vector_part_count rb drawings). lia.
Qed.

Lemma texts_black_nothing_removed (hl : Z) (l : list Span) :
  Forall (fun t => colour_of t = black)
         (texts_of (flat_map (span_ops hl []) l)).
Proof.
  rewrite texts_of_span_ops. apply Forall_forall. intros t Ht.
  apply in_map_iff in Ht. destruct Ht as (span & <- & _).
  unfold emitted, colour_of, text_colour. simpl.
  rewrite andb_false_r. reflexivity.
Qed.

Lemma texts_of_verdict_ops (vs : list ImageVerdict) :
  texts_of (flat_map verdict_ops vs) = [].
Proof.
  induction vs as [|v vs IH]; simpl; [reflexivity|].
  rewrite texts_of_app, IH. destruct v; reflexivity.
Qed.

Lemma pages_alone_quiet (rb hl : Z) (pages : list Page) :
  forall i sts,
    pages_alone rb hl i pages = Ok sts ->
    tally (sum_stats (map stats sts)) = 0%nat ->
    flat_map unredacted_spans sts = [] /\
    Forall (fun st => Forall (fun t => colour_of t = black)
                             (texts_of (contents (new_page st)))) sts.
Proof.
  induction pages as [|page pages IH]; intros i sts; simpl.
  - intro H. inversion H; subst. simpl. auto.
  - rewrite process_page_closed.
    destruct (page_inputs rb page) as [x|]; simpl; [|discriminate].
    destruct (pages_alone rb hl (S i) pages) as [sts'|] eqn:E; simpl;
      [|discriminate].
    intro H. inversion H; subst sts; clear H.
    destruct x as [[[anns imgs] drawings] blocks].
    cbn [map sum_stats fold_right]. rewrite tally_add_stats.
    fold (sum_stats (map stats sts')). rewrite page_removed_length.
    intro Hz.
    assert (Hrm : page_removed rb imgs drawings = []).
    { destruct (page_removed rb imgs drawings); [reflexivity|].
      simpl in Hz. lia. }
    assert (Hrest : tally (sum_stats (map stats sts')) = 0%nat) by lia.
    destruct (IH (S i) sts' E Hrest) as [Hs Ht].
    cbn [flat_map page_result unredacted_spans new_page contents app].
    rewrite Hrm, Hs, span_records_nothing_removed. split; [reflexivity|].
    constructor; [|exact Ht]. cbn [new_page contents].
    rewrite !texts_of_app, texts_of_verdict_ops. cbn [texts_of flat_map app].
    apply texts_black_nothing_removed.
Qed.

(** X11: when the row returned for a file counts no removed image and
    no removed path, the report of the file is empty and all the text of
    the saved document is black, with highlighting enabled or not: text
    is reported and marked only where something was removed. *)
Theorem nothing_removed_nothing_reported (file : Document)
  (remove_bbox highlight_text : Z) (r : FileResult) :
  process_file file remove_bbox highlight_text = Some r ->
  tally (snd (row r)) = 0%nat ->
  saved_spans r = [] /\
  Forall (fun np => Forall (fun t => colour_of t = black)
                           (texts_of (contents np))) (saved_doc r).
Proof.
  unfold process_file.
  destruct (open_doc file) as [pages|]; simpl; [|discriminate].
  rewrite page_loop_alone.
  destruct (pages_alone remove_bbox highlight_text 0 pages) as [sts|] eqn:E;
    simpl; [|discriminate].
  intro H. inversion H; subst r; clear H. simpl.
  rewrite add_stats_zero_l. intro Hz.
  destruct (pages_alone_quiet _ _ _ _ E Hz) as [Hs Ht].
  split; [exact Hs|].
  apply Forall_forall. intros np Hnp.
  apply in_map_iff in Hnp. destruct Hnp as (st & <- & Hst).
  rewrite Forall_forall in Ht. exact (Ht st Hst).
Qed.

Lemma nothing_removed_nothing_reported_witness :
  exists r,
    process_file (one_page_doc [grey_image] [curve] (one_run secret)) 1 1
    = Some r /\
    tally (snd (row r)) = 0%nat /\
    saved_spans r = [].
Proof.
  eexists. split; [reflexivity|]. split; [reflexivity|].
  exact (proj1 (@nothing_removed_nothing_reported
                  (one_page_doc [grey_image] [curve] (one_run secret)) 1 1 _
                  eq_refl eq_refl)).
Defined.

(** ** The summary of a run *)

Lemma process_file_names (f : Document) (rb hl : Z) (r : FileResult) :
  process_file f rb hl = Some r ->
  fst (row r) = base_fname f /\ original_file r = base_fname f.
Proof.
  unfold process_file.
  destruct (pages <- open_doc f;; page_loop rb hl 0 pages _); [|discriminate].
  intro H. inversion H. auto.
Qed.

Lemma rows_of_names (rb hl : Z) (files : list Document) :
  map fst (rows_of (map (fun f => process_file f rb hl) files))
  = map base_fname (filter (succeeded rb hl) files).
Proof.
  induction files as [|f files IH]; simpl; [reflexivity|].
  unfold succeeded at 1.
  destruct (process_file f rb hl) as [r|] eqn:E; simpl; [|exact IH].
  rewrite IH. destruct (process_file_names _ _ _ E) as [-> _]. reflexivity.
Qed.

Lemma rows_of_nil (results : list (option FileResult)) :
  rows_of results = [] <-> forall x, In x results -> x = None.
Proof.
  induction results as [|x results IH]; simpl.
  - split; [intros _ x [] | reflexivity].
  - destruct x as [r|]; simpl.
    + split; [discriminate|]. intro H.
      specialize (H (Some r) (or_introl eq_refl)). discriminate.
    + rewrite IH. split.
      * intros H x [<- | Hx]; auto.
      * intros H x Hx. apply H. right. exact Hx.
Qed.

(** X12: [run_operation] calls [process_file] once per input file, in
    order (the one file, the files of the directory, or none when the
    path is neither), and goes on after a file that fails.  The summary
    has one row per file that was processed, in order, under the file's
    own name, and none for the others; a file that cannot be opened gets
    none; and no summary is written exactly when no file was processed. *)
Theorem summary_lists_the_processed_files (input_path : InputPath)
  (remove_bbox highlight_text : Z) :
  let run := run_operation input_path remove_bbox highlight_text in
  fst run
  = map (fun f => process_file f remove_bbox highlight_text)
        (files_of input_path) /\
  snd run = rows_of (fst run) /\
  map fst (snd run)
  = map base_fname
        (filter (succeeded remove_bbox highlight_text) (files_of input_path)) /\
  (forall f, open_doc f = Raised ->
             process_file f remove_bbox highlight_text = None) /\
  (summary_csv (snd run) = None
   <-> forall f, In f (files_of input_path) ->
                 process_file f remove_bbox highlight_text = None) /\
  (forall x, summary_csv (snd run) = Some x -> x = (headers, snd run)).
Proof.
  unfold run_operation. cbv zeta. cbn [fst snd].
  fold (files_of input_path). rewrite log_results. cbn [app].
  split; [reflexivity|]. split; [reflexivity|]. split; [apply rows_of_names|].
  split; [|split].
  - intros f Hf. unfold process_file. rewrite Hf. reflexivity.
  - assert (Hcsv : forall l : list (string * Stats),
               summary_csv l = None <-> l = []).
    { intros [|x l]; simpl; split; congruence. }
    rewrite Hcsv, rows_of_nil. split.
    + intros H f Hf. apply H. apply in_map_iff. exists f. auto.
    + intros H x Hx. apply in_map_iff in Hx. destruct Hx as (f & <- & Hf).
      apply H. exact Hf.
  - intros x. destruct (rows_of _) as [|y l]; simpl; [discriminate|].
    intro H. inversion H. reflexivity.
Qed.

(** ** The names of the files written *)

Lemma rfind_from_notin (c : N) (s : str) :
  ~ In c s -> forall i found, posixpath.rfind_from c s i found = found.
Proof.
  induction s as [|x s IH]; intros Hn i found; simpl; [reflexivity|].
  rewrite IH by (intro H; apply Hn; right; exact H).
  destruct (N.eqb_spec x c) as [E|E]; [|reflexivity].
  exfalso. apply Hn. left. exact E.
Qed.

Lemma rfind_from_app (c : N) (a b : str) :
  forall i found,
    posixpath.rfind_from c (a ++ b) i found
    = posixpath.rfind_from c b (i + Z.of_nat (List.length a))%Z
        (posixpath.rfind_from c a i found).
Proof.
  induction a as [|x a IH]; intros i found; simpl.
  - rewrite Z.add_0_r. reflexivity.
  - rewrite IH. f_equal. lia.
Qed.

Lemma rfind_none (c : N) (s : str) :
  ~ In c s -> posixpath.rfind c s = (-1)%Z.
Proof. intro H. unfold posixpath.rfind. apply rfind_from_notin. exact H. Qed.

(** [rfind] finds the last occurrence. *)
Lemma rfind_last (c : N) (a b : str) :
  ~ In c b -> posixpath.rfind c (a ++ c :: b) = Z.of_nat (List.length a).
Proof.
  intro Hn. unfold posixpath.rfind. rewrite rfind_from_app. simpl.
  rewrite N.eqb_refl. apply rfind_from_notin. exact Hn.
Qed.

Lemma last_occurrence (c : N) (s : str) :
  In c s -> exists a b, s = a ++ c :: b /\ ~ In c b.
Proof.
  induction s as [|x s IH]; intro Hin; [destruct Hin|].
  destruct (in_dec N.eq_dec c s) as [Hs | Hs].
  - destruct (IH Hs) as (a & b & -> & Hb). exists (x :: a), b. auto.
  - destruct Hin as [-> | Hin]; [|contradiction].
    exists [], s. auto.
Qed.

Lemma firstn_length_app {A} (a b : list A) :
  firstn (List.length a) (a ++ b) = a.
Proof. induction a as [|x a IH]; simpl; [destruct b|]; congruence. Qed.

Lemma skipn_length_app {A} (a b : list A) :
  skipn (List.length a) (a ++ b) = b.
Proof. induction a as [|x a IH]; simpl; [reflexivity | exact IH]. Qed.

Lemma plain_name_app (u w : str) :
  plain_name (u ++ w) <-> plain_name u /\ plain_name w.
Proof.
  unfold plain_name. rewrite in_app_iff. tauto.
Qed.

(** A base name has no separator. *)
Lemma basename_plain (p : str) : plain_name (posixpath.basename p).
Proof.
  unfold posixpath.basename, posixpath.slice_from.
  destruct (in_dec N.eq_dec posixpath.sep p) as [Hin | Hn].
  - destruct (last_occurrence _ _ Hin) as (a & b & -> & Hb).
    rewrite rfind_last by exact Hb.
    replace (Z.to_nat (Z.of_nat (List.length a) + 1))
      with (List.length (a ++ [posixpath.sep]))
      by (rewrite length_app; simpl; lia).
    replace (a ++ posixpath.sep :: b) with ((a ++ [posixpath.sep]) ++ b)
      by (rewrite <- app_assoc; reflexivity).
    rewrite skipn_length_app. exact Hb.
  - rewrite rfind_none by exact Hn. simpl. exact Hn.
Qed.

(** The two parts [splitext] returns make up the path. *)
Lemma splitext_parts (p : str) :
  fst (posixpath.splitext p) ++ snd (posixpath.splitext p) = p.
Proof.
  unfold posixpath.splitext, posixpath.slice_to, posixpath.slice_from.
  destruct (_ <? _)%Z; [|apply app_nil_r].
  destruct (existsb _ _); [|apply app_nil_r].
  apply firstn_skipn.
Qed.

(** [splitext] takes off an extension that was added to a name which
    has no separator and is not made of dots only. *)
Lemma splitext_added (s e : str) :
  plain_name s ->
  (exists c, In c s /\ c <> posixpath.extsep) ->
  ~ In posixpath.extsep e ->
  plain_name e ->
  posixpath.splitext (s ++ posixpath.extsep :: e)
  = (s, posixpath.extsep :: e).
Proof.
  intros Hs (c & Hc & Hdot) He Hpe.
  unfold posixpath.splitext, posixpath.slice_to, posixpath.slice_from.
  rewrite rfind_last by exact He.
  rewrite rfind_none.
  2:{ intro H. apply in_app_or in H. destruct H as [H | [H | H]].
      - exact (Hs H).
      - discriminate H.
      - exact (Hpe H). }
  assert (H0 : (-1 <? Z.of_nat (List.length s))%Z = true)
    by (apply Z.ltb_lt; lia).
  rewrite H0. change (-1 + 1)%Z with 0%Z.
  rewrite Z.sub_0_r, !Nat2Z.id. change (Z.to_nat 0) with 0%nat.
  cbn [skipn]. rewrite firstn_length_app, skipn_length_app.
  assert (Hex : existsb (fun c => negb (c =? posixpath.extsep)%N) s = true).
  { apply existsb_exists. exists c. split; [exact Hc|].
    apply negb_true_iff. apply N.eqb_neq. exact Hdot. }
  rewrite Hex. reflexivity.
Qed.

Lemma plain_not_absolute (b : str) :
  plain_name b -> posixpath.startswith b [posixpath.sep] = false.
Proof.
  destruct b as [|x b]; simpl; [reflexivity|]. intro H.
  destruct (N.eqb_spec x posixpath.sep) as [E|E]; [|reflexivity].
  exfalso. apply H. left. exact E.
Qed.

Lemma join_plain (a b : str) :
  plain_name b ->
  posixpath.join a b
  = (if negb (nonempty a) || posixpath.endswith a [posixpath.sep]
     then a else a ++ [posixpath.sep]) ++ b.
Proof.
  intro Hb. unfold posixpath.join. rewrite (plain_not_absolute Hb).
  destruct (negb (nonempty a) || posixpath.endswith a [posixpath.sep]);
    [reflexivity|].
  rewrite <- app_assoc. reflexivity.
Qed.

Lemma literal_plain (s : string) :
  forallb (fun c => negb (c =? posixpath.sep)%N) (str_of_string s) = true ->
  plain_name (str_of_string s).
Proof.
  intros H Hin. rewrite forallb_forall in H. specialize (H _ Hin).
  rewrite N.eqb_refl in H. discriminate.
Qed.

(** X13: without a custom name ([None] or the empty string) the saved
    document is called after the input file: the base name of the input
    path without its extension, followed by [_UNREDACTED.pdf], and the
    report has the same name with [.json] in place of [.pdf].  Neither
    name holds a path separator, so both files are written directly in
    the output folder, whatever the input path is. *)
Theorem default_names_stay_in_the_output_folder (lower : str -> str)
  (output_folder file_path : str) (custom_name : option str) :
  custom_name = None \/ custom_name = Some [] ->
  let stem := fst (posixpath.splitext (posixpath.basename file_path)) in
  let dir := if negb (nonempty output_folder)
                || posixpath.endswith output_folder [posixpath.sep]
             then output_folder else output_folder ++ [posixpath.sep] in
  final_name lower file_path custom_name
  = stem ++ str_of_string "_UNREDACTED.pdf" /\
  json_name lower file_path custom_name
  = stem ++ str_of_string "_UNREDACTED.json" /\
  (exists ext, posixpath.basename file_path = stem ++ ext) /\
  plain_name (final_name lower file_path custom_name) /\
  plain_name (json_name lower file_path custom_name) /\
  out_path lower output_folder file_path custom_name
  = dir ++ final_name lower file_path custom_name /\
  json_path lower output_folder file_path custom_name
  = dir ++ json_name lower file_path custom_name.
Proof.
  intros Hc stem dir.
  assert (Hparts : posixpath.basename file_path
                   = stem ++ snd (posixpath.splitext
                                    (posixpath.basename file_path)))
    by (symmetry; apply splitext_parts).
  assert (Hstem : plain_name stem).
  { pose proof (basename_plain file_path) as H.
    rewrite Hparts in H. apply plain_name_app in H. tauto. }
  assert (Hfinal : final_name lower file_path custom_name
                   = stem ++ str_of_string "_UNREDACTED.pdf")
    by (destruct Hc as [-> | ->]; reflexivity).
  assert (Hsplit : posixpath.splitext
                     (stem ++ str_of_string "_UNREDACTED.pdf")
                   = (stem ++ str_of_string "_UNREDACTED",
                      str_of_string ".pdf")).
  { change (str_of_string "_UNREDACTED.pdf")
      with (str_of_string "_UNREDACTED"
            ++ posixpath.extsep :: str_of_string "pdf").
    rewrite app_assoc. apply splitext_added.
    - apply plain_name_app. split; [exact Hstem|].
      apply literal_plain. reflexivity.
    - exists 95%N. split; [|discriminate].
      apply in_or_app. right. left. reflexivity.
    - intro H. simpl in H. intuition discriminate.
    - apply literal_plain. reflexivity. }
  assert (Hjson : json_name lower file_path custom_name
                  = stem ++ str_of_string "_UNREDACTED.json").
  { unfold json_name. rewrite Hfinal, Hsplit. cbn [fst].
    rewrite <- app_assoc. reflexivity. }
  assert (Hpf : plain_name (final_name lower file_path custom_name)).
  { rewrite Hfinal. apply plain_name_app. split; [exact Hstem|].
    apply literal_plain. reflexivity. }
  assert (Hpj : plain_name (json_name lower file_path custom_name)).
  { rewrite Hjson. apply plain_name_app. split; [exact Hstem|].
    apply literal_plain. reflexivity. }
  split; [exact Hfinal|]. split; [exact Hjson|].
  split; [eexists; exact Hparts|].
  split; [exact Hpf|]. split; [exact Hpj|]. split.
  - unfold out_path. apply join_plain. exact Hpf.
  - unfold json_path. apply join_plain. exact Hpj.
Qed.

Lemma default_names_stay_in_the_output_folder_witness :
  final_name no_lower sample_path None
  = str_of_string "report.v2_UNREDACTED.pdf" /\
  json_path no_lower sample_folder sample_path None
  = str_of_string "out/report.v2_UNREDACTED.json".
Proof.
  pose proof (@default_names_stay_in_the_output_folder no_lower sample_folder
                sample_path None (or_introl eq_refl)) as H.
  split.
  - exact (proj1 H).
  - exact (proj2 (proj2 (proj2 (proj2 (proj2 (proj2 H)))))).
Defined.

Lemma rfind_found (c : N) (s : str) :
  In c s -> (0 <= posixpath.rfind c s)%Z.
Proof.
  intro Hin. destruct (last_occurrence _ _ Hin) as (a & b & -> & Hb).
  rewrite rfind_last by exact Hb. lia.
Qed.

Lemma splitext_root_absolute (t : str) :
  exists u, fst (posixpath.splitext (posixpath.sep :: t)) = posixpath.sep :: u.
Proof.
  unfold posixpath.splitext, posixpath.slice_to.
  destruct (_ <? _)%Z eqn:E; [|eexists; reflexivity].
  destruct (existsb _ _); [|eexists; reflexivity].
  apply Z.ltb_lt in E.
  assert (H0 : (0 <= posixpath.rfind posixpath.sep (posixpath.sep :: t))%Z)
    by (apply rfind_found; left; reflexivity).
  destruct (Z.to_nat (posixpath.rfind posixpath.extsep (posixpath.sep :: t)))
    as [|n] eqn:En; [lia|].
  simpl. eexists. reflexivity.
Qed.

Lemma join_absolute (a u : str) :
  posixpath.join a (posixpath.sep :: u) = posixpath.sep :: u.
Proof. unfold posixpath.join. destruct u; reflexivity. Qed.

(** X14: a custom name is used as it is, or with [.pdf] added, and the
    name of the input file plays no part in it.  When the custom name
    starts with a separator the output folder is ignored: the document
    and the report are written at the custom path itself. *)
Theorem absolute_custom_name_leaves_the_output_folder (lower : str -> str)
  (output_folder file_path : str) (c : N) (cs : str) :
  (final_name lower file_path (Some (c :: cs)) = c :: cs \/
   final_name lower file_path (Some (c :: cs))
   = (c :: cs) ++ str_of_string ".pdf") /\
  (forall file_path',
     final_name lower file_path' (Some (c :: cs))
     = final_name lower file_path (Some (c :: cs))) /\
  (c = posixpath.sep ->
   out_path lower output_folder file_path (Some (c :: cs))
   = final_name lower file_path (Some (c :: cs)) /\
   json_path lower output_folder file_path (Some (c :: cs))
   = json_name lower file_path (Some (c :: cs))).
Proof.
  split; [|split].
  - unfold final_name.
    destruct (posixpath.endswith _ _); [left | right]; reflexivity.
  - intro file_path'. reflexivity.
  - intros ->. unfold out_path, json_path, json_name.
    assert (Hf : exists u, final_name lower file_path
                             (Some (posixpath.sep :: cs))
                           = posixpath.sep :: u).
    { unfold final_name. destruct (posixpath.endswith _ _); eexists;
        reflexivity. }
    destruct Hf as (u & Hu). rewrite Hu.
    destruct (splitext_root_absolute u) as (w & Hw). rewrite Hw.
    split; [apply join_absolute|].
    change ((posixpath.sep :: w) ++ str_of_string ".json")
      with (posixpath.sep :: (w ++ str_of_string ".json")).
    apply join_absolute.
Qed.

Lemma absolute_custom_name_leaves_the_output_folder_witness :
  out_path no_lower sample_folder sample_path (Some (str_of_string "/tmp/x"))
  = str_of_string "/tmp/x.pdf".
Proof.
  exact (proj1 (proj2 (proj2
    (absolute_custom_name_leaves_the_output_folder no_lower sample_folder
       sample_path posixpath.sep (str_of_string "tmp/x"))) eq_refl)).
Defined.

(** [splitext] on a name without separator that ends in a dot and a
    dot-free extension: the extension is split off unless only dots come
    before it. *)
Lemma splitext_plain (s e : str) :
  plain_name s ->
  ~ In posixpath.extsep e ->
  plain_name e ->
  posixpath.splitext (s ++ posixpath.extsep :: e)
  = if has_name s then (s, posixpath.extsep :: e)
    else (s ++ posixpath.extsep :: e, []).
Proof.
  intros Hs He Hpe.
  unfold posixpath.splitext, posixpath.slice_to, posixpath.slice_from.
  rewrite rfind_last by exact He.
  rewrite rfind_none.
  2:{ intro H. apply in_app_or in H. destruct H as [H | [H | H]].
      - exact (Hs H).
      - discriminate H.
      - exact (Hpe H). }
  assert (H0 : (-1 <? Z.of_nat (List.length s))%Z = true)
    by (apply Z.ltb_lt; lia).
  rewrite H0. change (-1 + 1)%Z with 0%Z.
  rewrite Z.sub_0_r, !Nat2Z.id. change (Z.to_nat 0) with 0%nat.
  cbn [skipn]. rewrite firstn_length_app, skipn_length_app.
  reflexivity.
Qed.

Lemma splitext_no_dot (p : str) :
  ~ In posixpath.extsep p -> posixpath.splitext p = (p, []).
Proof.
  intro Hn. unfold posixpath.splitext.
  rewrite (rfind_none _ _ Hn).
  destruct (in_dec N.eq_dec posixpath.sep p) as [Hin | Hs].
  - pose proof (rfind_found _ _ Hin) as H0.
    destruct (_ <? _)%Z eqn:E; [|reflexivity].
    apply Z.ltb_lt in E. lia.
  - rewrite (rfind_none _ _ Hs). reflexivity.
Qed.

Lemma literal_no_dot_pdf : ~ In posixpath.extsep (str_of_string "pdf").
Proof. intro H. simpl in H. intuition discriminate. Qed.

(** X15: for a custom name that is not empty and holds no separator.
    When its lower-case form does not end in [.pdf], the document is the
    name with [.pdf] added, and the report is the name with [.json]
    added - unless the name is made of dots only, where the report is
    the document name with [.json] added.  When it does, the document
    is the name itself; the report replaces the last extension of the
    name by [.json] when something other than dots comes before that
    extension, and is the whole name with [.json] added otherwise (the
    name [.pdf] gives the report [.pdf.json]) or when the name holds no
    dot. *)
Theorem custom_name_gets_the_extensions (lower : str -> str)
  (file_path custom : str) :
  custom <> [] ->
  plain_name custom ->
  (posixpath.endswith (lower custom) (str_of_string ".pdf") = false ->
   final_name lower file_path (Some custom) = custom ++ str_of_string ".pdf" /\
   json_name lower file_path (Some custom)
   = (if has_name custom then custom else custom ++ str_of_string ".pdf")
     ++ str_of_string ".json") /\
  (posixpath.endswith (lower custom) (str_of_string ".pdf") = true ->
   final_name lower file_path (Some custom) = custom /\
   (forall s e,
      custom = s ++ posixpath.extsep :: e ->
      ~ In posixpath.extsep e ->
      json_name lower file_path (Some custom)
      = (if has_name s then s else custom) ++ str_of_string ".json") /\
   (~ In posixpath.extsep custom ->
    json_name lower file_path (Some custom)
    = custom ++ str_of_string ".json")).
Proof.
  intros Hne Hplain.
  destruct custom as [|c cs]; [congruence|]. split; intro Hends.
  - assert (Hf : final_name lower file_path (Some (c :: cs))
                 = (c :: cs) ++ str_of_string ".pdf")
      by (unfold final_name; rewrite Hends; reflexivity).
    split; [exact Hf|]. unfold json_name, final_name. rewrite Hends.
    change (str_of_string ".pdf")
      with (posixpath.extsep :: str_of_string "pdf").
    rewrite splitext_plain;
      [| exact Hplain | exact literal_no_dot_pdf
       | apply literal_plain; reflexivity].
    destruct (has_name (c :: cs)); reflexivity.
  - assert (Hf : final_name lower file_path (Some (c :: cs)) = c :: cs)
      by (unfold final_name; rewrite Hends; reflexivity).
    split; [exact Hf|]. split.
    + intros s e Hse He.
      unfold json_name, final_name. rewrite Hends, Hse.
      rewrite Hse in Hplain. apply plain_name_app in Hplain.
      destruct Hplain as [Hps Hpe].
      rewrite splitext_plain;
        [| exact Hps | exact He | intro H; apply Hpe; right; exact H].
      destruct (has_name s); reflexivity.
    + intro Hnd. unfold json_name, final_name. rewrite Hends.
      rewrite (splitext_no_dot _ Hnd). reflexivity.
Qed.

Lemma custom_name_gets_the_extensions_witness :
  (final_name no_lower sample_path (Some (str_of_string "notes.txt"))
   = str_of_string "notes.txt.pdf" /\
   json_name no_lower sample_path (Some (str_of_string "notes.txt"))
   = str_of_string "notes.txt.json") /\
  json_name no_lower sample_path (Some (str_of_string ".pdf"))
  = str_of_string ".pdf.json".
Proof.
  split.
  - refine (proj1 (@custom_name_gets_the_extensions no_lower sample_path
                     (str_of_string "notes.txt") _ _) eq_refl).
    + discriminate.
    + apply literal_plain. reflexivity.
  - refine (proj1 (proj2 (proj2 (@custom_name_gets_the_extensions no_lower
                     sample_path (str_of_string ".pdf") _ _) eq_refl))
                  [] (str_of_string "pdf") eq_refl literal_no_dot_pdf).
    + discriminate.
    + apply literal_plain. reflexivity.
Defined.

(** ** The two flags *)

Lemma image_verdict_off (rb : Z) (img : Image) :
  (rb =? 1)%Z = false -> image_verdict rb img = image_verdict 0 img.
Proof. intro E. unfold image_verdict. rewrite E. reflexivity. Qed.

Lemma page_result_off (rb hl : Z) (pg : nat) (prect : Rect)
  (x : list Annot * list Image * list DrawingPath * list Block)
  (s0 : Stats) (sp0 : list RecoveredSpan) :
  (rb =? 1)%Z = false ->
  page_result rb hl pg prect x s0 sp0 = page_result 0 hl pg prect x s0 sp0.
Proof.
  intro E. destruct x as [[[anns imgs] drawings] blocks].
  unfold page_result, page_removed, page_shapes, vector_part. rewrite E.
  rewrite (map_ext (image_verdict rb) (image_verdict 0))
    by (intro img; apply image_verdict_off; exact E).
  reflexivity.
Qed.

Lemma span_ops_off (hl : Z) (removed : list Rect) (l : list Span) :
  (hl =? 1)%Z = false ->
  flat_map (span_ops hl removed) l = flat_map (span_ops 0 removed) l.
Proof.
  intro E. apply flat_map_ext. intro span.
  unfold span_ops, text_colour. rewrite E. reflexivity.
Qed.

Lemma process_page_flags (rb hl : Z) (pg : nat) (page : Page) (s0 : Stats)
  (sp0 : list RecoveredSpan) :
  ((rb =? 1)%Z = false ->
   process_page rb hl pg page s0 sp0 = process_page 0 hl pg page s0 sp0) /\
  ((hl =? 1)%Z = false ->
   process_page rb hl pg page s0 sp0 = process_page rb 0 pg page s0 sp0).
Proof.
  rewrite !process_page_closed. split; intro E.
  - assert (Hin : page_inputs rb page = page_inputs 0 page)
      by (unfold page_inputs; rewrite E; reflexivity).
    rewrite Hin.
    destruct (page_inputs 0 page) as [x|]; cbn [bind]; [|reflexivity].
    f_equal. apply page_result_off. exact E.
  - destruct (page_inputs rb page) as [x|]; cbn [bind]; [|reflexivity].
    f_equal. destruct x as [[[anns imgs] drawings] blocks].
    unfold page_result. rewrite (span_ops_off _ _ _ E). reflexivity.
Qed.

Lemma page_loop_flags (rb hl : Z) (pages : list Page) :
  forall i d,
    ((rb =? 1)%Z = false ->
     page_loop rb hl i pages d = page_loop 0 hl i pages d) /\
    ((hl =? 1)%Z = false ->
     page_loop rb hl i pages d = page_loop rb 0 i pages d).
Proof.
  induction pages as [|page pages IH]; intros i d; simpl; [auto|].
  split; intro E.
  - rewrite (proj1 (process_page_flags rb hl (i + 1) page _ _) E).
    destruct (process_page 0 hl (i + 1) page _ _); simpl; [|reflexivity].
    apply IH. exact E.
  - rewrite (proj2 (process_page_flags rb hl (i + 1) page _ _) E).
    destruct (process_page rb 0 (i + 1) page _ _); simpl; [|reflexivity].
    apply IH. exact E.
Qed.

(** X16: only the value 1 turns a mode on.  With any other value of
    [remove_bbox] (0, 2, a negative number) a file is processed exactly
    as with 0, and with any other value of [highlight_text] exactly as
    with 0. *)
Theorem only_the_value_one_enables_a_mode (file : Document)
  (remove_bbox highlight_text : Z) :
  (remove_bbox <> 1%Z ->
   process_file file remove_bbox highlight_text
   = process_file file 0 highlight_text) /\
  (highlight_text <> 1%Z ->
   process_file file remove_bbox highlight_text
   = process_file file remove_bbox 0).
Proof.
  unfold process_file. split; intro H; apply Z.eqb_neq in H;
    destruct (open_doc file) as [pages|]; simpl; try reflexivity.
  - rewrite (proj1 (page_loop_flags remove_bbox highlight_text pages 0 _) H).
    reflexivity.
  - rewrite (proj2 (page_loop_flags remove_bbox highlight_text pages 0 _) H).
    reflexivity.
Qed.

Lemma only_the_value_one_enables_a_mode_witness :
  process_file busy_doc 2 1 = process_file busy_doc 0 1.
Proof.
  refine (proj1 (only_the_value_one_enables_a_mode busy_doc 2 1) _).
  discriminate.
Defined.

Lemma placement_emitted (hl hl' : Z) (removed : list Rect) (l : list Span) :
  map placement (map (emitted hl removed) l)
  = map placement (map (emitted hl' removed) l).
Proof. rewrite !map_map. reflexivity. Qed.

(** X17: the highlight flag changes the colour of text and nothing
    else.  With another value of the flag a page is processed with the
    same outcome (result or exception), the same statistics, records,
    removed regions and deleted annotations, the same images and shapes
    on the output page, and the same text at the same places and sizes. *)
Theorem highlight_changes_colour_only (remove_bbox highlight_text hl' : Z)
  (current_pg : nat) (page : Page) (s0 : Stats) (sp0 : list RecoveredSpan)
  (st : PageState) :
  process_page remove_bbox highlight_text current_pg page s0 sp0 = Ok st ->
  exists st',
    process_page remove_bbox hl' current_pg page s0 sp0 = Ok st' /\
    stats st' = stats st /\
    unredacted_spans st' = unredacted_spans st /\
    removed_rects_on_page st' = removed_rects_on_page st /\
    deleted_annots st' = deleted_annots st /\
    images_of (contents (new_page st')) = images_of (contents (new_page st)) /\
    shapes_of (contents (new_page st')) = shapes_of (contents (new_page st)) /\
    map placement (texts_of (contents (new_page st')))
    = map placement (texts_of (contents (new_page st))).
Proof.
  intro Hp. page_closed Hp.
  exists (page_result remove_bbox hl' current_pg (page_rect page)
            (anns, imgs, drawings, blocks) s0 sp0).
  split.
  - rewrite process_page_closed, Hx. reflexivity.
  - cbn [page_result stats unredacted_spans removed_rects_on_page
         deleted_annots new_page contents].
    repeat (split; [reflexivity|]).
    rewrite !images_of_app, !shapes_of_app, !texts_of_app,
      !images_of_span_ops, !shapes_of_span_ops, !texts_of_span_ops.
    repeat (split; [reflexivity|]).
    rewrite !map_app. f_equal. f_equal. apply placement_emitted.
Qed.

Lemma highlight_changes_colour_only_witness :
  exists st st',
    process_page 1 1 1 busy_page stats0 [] = Ok st /\
    process_page 1 0 1 busy_page stats0 [] = Ok st' /\
    unredacted_spans st' = unredacted_spans st.
Proof.
  eexists.
  destruct (@highlight_changes_colour_only 1 1 0 1 busy_page stats0 [] _
              eq_refl) as (st' & H1 & _ & H2 & _).
  exists st'. split; [reflexivity|]. split; [exact H1 | exact H2].
Defined.

(** ** Red text and the report *)

Lemma red_texts_records (pg : nat) (removed : list Rect) (l : list Span) :
  map (fun t => strip (snd (fst (fst t))))
      (filter (fun t => is_red (colour_of t))
              (map (emitted 1 removed) (filter printable l)))
  = map rec_text (flat_map (span_records pg removed) l).
Proof.
  induction l as [|span l IH]; simpl; [reflexivity|].
  rewrite map_app, <- IH. unfold span_records.
  destruct (printable span); simpl; [|reflexivity].
  unfold text_colour. simpl.
  destruct (was_covered (bbox span) removed); reflexivity.
Qed.

Lemma no_red_without_highlight (hl : Z) (removed : list Rect) (l : list Span) :
  (hl =? 1)%Z = false ->
  filter (fun t => is_red (colour_of t)) (map (emitted hl removed) l) = [].
Proof.
  intro E. induction l as [|span l IH]; simpl; [reflexivity|].
  unfold text_colour. rewrite E. simpl. exact IH.
Qed.

(** X18: with highlighting enabled, the text drawn in red on an output
    page is exactly the text the page adds to the report: the same runs,
    in the same order, the report holding them stripped of white space
    at both ends.  With highlighting disabled no text is red, and the
    report is the same. *)
Theorem red_text_is_the_reported_text (remove_bbox highlight_text : Z)
  (current_pg : nat) (page : Page) (s0 : Stats) (sp0 : list RecoveredSpan)
  (st : PageState) :
  process_page remove_bbox highlight_text current_pg page s0 sp0 = Ok st ->
  exists recs,
    unredacted_spans st = sp0 ++ recs /\
    (highlight_text = 1%Z ->
     red_texts (contents (new_page st)) = map rec_text recs) /\
    (highlight_text <> 1%Z -> red_texts (contents (new_page st)) = []).
Proof.
  intro Hp.
  destruct (process_page_text _ _ _ _ _ _ Hp) as (blocks & _ & Hb & _).
  pose proof (page_texts _ _ _ _ _ _ Hp Hb) as Ht.
  pose proof (page_records _ _ _ _ _ _ Hp Hb) as Hr.
  exists (flat_map (span_records current_pg (removed_rects_on_page st))
                   (all_spans blocks)).
  split; [exact Hr|]. unfold red_texts. rewrite Ht. split.
  - intros ->. apply red_texts_records.
  - intro H. apply Z.eqb_neq in H.
    rewrite no_red_without_highlight by exact H. reflexivity.
Qed.

Lemma red_text_is_the_reported_text_witness :
  exists st,
    process_page 1 1 1 busy_page stats0 [] = Ok st /\
    red_texts (contents (new_page st)) = [str_of_string "SECRET"].
Proof.
  eexists. split; [reflexivity|].
  destruct (@red_text_is_the_reported_text 1 1 1 busy_page stats0 [] _ eq_refl)
    as (recs & Hr & Hred & _).
  rewrite (Hred eq_refl).
  apply (f_equal (map rec_text)) in Hr. simpl in Hr.
  rewrite <- Hr. reflexivity.
Defined.
